(** * interprompt.promt_template: multi-language prompt templates and lists

    A shallow embedding of [src/interprompt/promt_template.py] and the
    properties of its containers, its loader and its factory generator.

    Conventions of the embedding.
    - A Python [str] is a [string]; the character [c : ascii] stands for
      the code point of the same number, so the model covers the strings
      over the code points 0..255.
    - A Python [dict] whose iteration order the code depends on
      ([next(iter(d.values()))], [list(d.keys())]) is an association list
      in insertion order ([dict V]); keyword arguments ([**kwargs]), which
      the code only passes on by name, are a [gmap string V].
    - An exception is a value of [PyErr], one constructor per [raise] site
      of the module; a method that only reads returns a [result]; a method
      that mutates [self] is a function from the state before the call to
      the outcome and the state the call leaves behind ([PyM]). *)

From Stdlib Require Import Ascii String NArith.
From stdpp Require Import base option list strings gmap sorting.

Set Default Proof Using "Type".
Local Open Scope string_scope.

(** ** Python strings *)

Module PyStr.

(** [Py_UNICODE_ISSPACE] on the code points 0..255: TAB..CR, FS..US,
    SPACE, NEL and NBSP. *)
Definition isspace (c : ascii) : bool :=
  let n := N_of_ascii c in
  (((9 <=? n) && (n <=? 13)) || ((28 <=? n) && (n <=? 32))
   || (n =? 133) || (n =? 160))%N.

(** [s.lstrip()] *)
Fixpoint lstrip (s : string) : string :=
  match s with
  | EmptyString => EmptyString
  | String c s' => if isspace c then lstrip s' else s
  end.

(** [s.rstrip()] *)
Fixpoint rstrip (s : string) : string :=
  match s with
  | EmptyString => EmptyString
  | String c s' =>
      match rstrip s' with
      | EmptyString => if isspace c then EmptyString else String c EmptyString
      | r => String c r
      end
  end.

(** [s.strip()] *)
Definition strip (s : string) : string := rstrip (lstrip s).

(** [s.replace(old, new)] for a one-character [old]. *)
Fixpoint replace (old : ascii) (new : string) (s : string) : string :=
  match s with
  | EmptyString => EmptyString
  | String c s' =>
      if Ascii.eqb c old then new +:+ replace old new s'
      else String c (replace old new s')
  end.

(** [s * n] *)
Fixpoint repeat (s : string) (n : nat) : string :=
  match n with
  | O => EmptyString
  | S n' => s +:+ repeat s n'
  end.

(** [sep.join(items)] *)
Definition join (sep : string) (items : list string) : string :=
  String.concat sep items.

(** [s.endswith(suffix)] *)
Definition endswith (s suffix : string) : bool :=
  let n := String.length s in
  let m := String.length suffix in
  (m <=? n)%nat && String.eqb (String.substring (n - m) m s) suffix.

(** The line feed, Python's ["\n"]. *)
Definition LF : ascii := ascii_of_nat 10.
Definition nl : string := String LF EmptyString.

End PyStr.

(** ** Exceptions and outcomes *)

(** One constructor per [raise] site (the line is that of the [raise]),
    and one per exception the interpreter or a collaborator raises. *)
Inductive PyErr : Type :=
  | DuplicateLanguage          (* KeyError, line 92 *)
  | LanguageNotFound           (* KeyError, line 107 *)
  | NoItemsRegistered          (* KeyError, line 112 *)
  | DefaultLanguageNotFound    (* KeyError, line 117 *)
  | ForbiddenParameterNames    (* ValueError, line 157 *)
  | InconsistentParameters     (* ValueError, line 164 *)
  | NoTemplatesRegistered      (* RuntimeError, line 178 *)
  | MissingPromptsKey          (* KeyError, line 267 *)
  | InvalidPromptType          (* ValueError, line 277 *)
  | UnknownPromptName          (* KeyError of [d[prompt_name]], lines 292, 295 *)
  | PyTypeError                (* TypeError raised by the interpreter *)
  | PyAttributeError           (* AttributeError raised by the interpreter *)
  | PySyntaxError              (* SyntaxError raised when a module is compiled *)
  | NonStringLanguageCode      (* a [lang] entry that is not a [str] *)
  | TemplateError (msg : string). (* raised by the template engine *)

Inductive result (A : Type) : Type :=
  | Ok (a : A)
  | Raise (e : PyErr).
Arguments Ok {A} a.
Arguments Raise {A} e.

Definition result_bind {A B} (m : result A) (k : A -> result B) : result B :=
  match m with
  | Ok a => k a
  | Raise e => Raise e
  end.

Definition is_ok {A} (r : result A) : bool :=
  match r with Ok _ => true | Raise _ => false end.

(** A method that mutates its receiver: the outcome and the state left
    behind.  An exception keeps whatever was written before it. *)
Definition PyM (S A : Type) : Type := S -> result A * S.

Definition pym_ret {S A} (a : A) : PyM S A := fun s => (Ok a, s).
Definition pym_raise {S A} (e : PyErr) : PyM S A := fun s => (Raise e, s).
Definition pym_bind {S A B} (m : PyM S A) (k : A -> PyM S B) : PyM S B :=
  fun s => match m s with
           | (Ok a, s') => k a s'
           | (Raise e, s') => (Raise e, s')
           end.
Definition pym_get {S} : PyM S S := fun s => (Ok s, s).
Definition pym_put {S} (s : S) : PyM S unit := fun _ => (Ok tt, s).
(** A read-only call made from a mutating method. *)
Definition pym_lift {S A} (r : result A) : PyM S A := fun s => (r, s).

Declare Scope py_scope.
Delimit Scope py_scope with py.
Notation "'try!' x <- m ; k" := (result_bind m (fun x => k))
  (at level 10, x name, m at level 100, k at level 200) : py_scope.
Notation "'do!' x <- m ; k" := (pym_bind m (fun x => k))
  (at level 10, x name, m at level 100, k at level 200) : py_scope.
Local Open Scope py_scope.

(** [for x in xs: body(x)], stopping at the first exception. *)
Fixpoint pym_for {S A} (xs : list A) (body : A -> PyM S unit) : PyM S unit :=
  match xs with
  | [] => pym_ret tt
  | x :: xs' => do! _ <- body x; pym_for xs' body
  end.

(** ** Python dictionaries, in insertion order *)

Module PyDict.
Section dict.
Context {V : Type}.

Definition dict : Type := list (string * V).

(** [d[k]], [None] standing for the [KeyError]; also [d.get(k)]. *)
Fixpoint get (k : string) (d : dict) : option V :=
  match d with
  | [] => None
  | (k', v) :: d' => if String.eqb k' k then Some v else get k d'
  end.

(** [k in d] *)
Definition contains (k : string) (d : dict) : bool :=
  match get k d with Some _ => true | None => false end.

(** [d[k] = v]: a key that is present keeps its place, a new key goes
    to the end. *)
Fixpoint set (k : string) (v : V) (d : dict) : dict :=
  match d with
  | [] => [(k, v)]
  | (k', v') :: d' =>
      if String.eqb k' k then (k, v) :: d' else (k', v') :: set k v d'
  end.

Definition keys (d : dict) : list string := d.*1.
Definition values (d : dict) : list V := d.*2.
Definition items (d : dict) : list (string * V) := d.

End dict.
Arguments dict V : clear implicits.
End PyDict.
Abbreviation dict := PyDict.dict.

(** ** PromptList *)

Record PromptList : Type := mkPromptList { pl_items : list string }.

(** [PromptList.__init__] *)
Definition PromptList_init (items : list string) : PromptList :=
  {| pl_items := PyStr.strip <$> items |}.

(** [PromptList.to_string] *)
Definition to_string (self : PromptList) : string :=
  let bullet := " * " in
  let indent := PyStr.repeat " " (String.length bullet) in
  let items := (fun x => PyStr.replace PyStr.LF (PyStr.nl +:+ indent) x) <$> pl_items self in
  PyStr.join (PyStr.nl +:+ " * ") items.

(** ** The template engine

    Modelled from the spec: the class [JinjaTemplate] of
    [interprompt.jinja_template], which [PromptTemplate] wraps, is not among
    the sources.  The spec (sections 1 and 3) describes it as a black box
    with the capabilities "render(vars) -> string" and "extract declared
    parameter names", the parameters being "the set of free variable names
    the template body references, computed once".  The module calls its
    constructor, [render] with keyword arguments, and [get_parameters]. *)
Record JinjaEngine : Type := {
  JinjaTemplate : Type;
  JinjaValue : Type;
  jinja_new : string -> result JinjaTemplate;
  jinja_render : JinjaTemplate -> gmap string JinjaValue -> result string;
  jinja_get_parameters : JinjaTemplate -> list string
}.

(** The parameter names are a set: the list that [get_parameters] returns
    is determined by its members. *)
Definition canonical_parameters (E : JinjaEngine) : Prop :=
  forall t1 t2 : JinjaTemplate E,
    (forall p, p ∈ jinja_get_parameters E t1 <-> p ∈ jinja_get_parameters E t2) ->
    jinja_get_parameters E t1 = jinja_get_parameters E t2.

Definition DEFAULT_LANG_CODE : string := "default".

Inductive LanguageFallbackMode : Type :=
  | ANY
  | EXCEPTION
  | USE_DEFAULT_LANG.

(** ** _MultiLangContainer *)

Record MultiLangContainer (T : Type) : Type := mkMultiLangContainer {
  mlc_name : string;
  lang2item : dict T
}.
Arguments mkMultiLangContainer {T} _ _.
Arguments mlc_name {T} _.
Arguments lang2item {T} _.

Section MultiLangContainer.
Context {T : Type}.

(** [_MultiLangContainer.__init__] *)
Definition MultiLangContainer_init (name : string) : MultiLangContainer T :=
  {| mlc_name := name; lang2item := [] |}.

(** [_MultiLangContainer.get_language_codes] *)
Definition get_language_codes (self : MultiLangContainer T) : list string :=
  PyDict.keys (lang2item self).

(** [_MultiLangContainer.__len__] *)
Definition MultiLangContainer_len (self : MultiLangContainer T) : nat :=
  length (lang2item self).

(** [_MultiLangContainer.add_item] *)
Definition add_item (item : T) (lang_code : string) (allow_overwrite : bool)
  : PyM (MultiLangContainer T) unit :=
  do! self <- pym_get;
  if negb allow_overwrite && PyDict.contains lang_code (lang2item self)
  then pym_raise DuplicateLanguage
  else pym_put {| mlc_name := mlc_name self;
                  lang2item := PyDict.set lang_code item (lang2item self) |}.

(** [_MultiLangContainer.get_item] *)
Definition get_item (self : MultiLangContainer T) (lang : string)
    (fallback_mode : LanguageFallbackMode) : result T :=
  match PyDict.get lang (lang2item self) with
  | Some item => Ok item
  | None =>
      match fallback_mode with
      | EXCEPTION => Raise LanguageNotFound
      | ANY =>
          match PyDict.values (lang2item self) with
          | item :: _ => Ok item
          | [] => Raise NoItemsRegistered
          end
      | USE_DEFAULT_LANG =>
          match PyDict.get DEFAULT_LANG_CODE (lang2item self) with
          | Some item => Ok item
          | None => Raise DefaultLanguageNotFound
          end
      end
  end.

(** A sequence of [add_item] calls, each one caught or not: the state
    after all of them. *)
Fixpoint add_items (calls : list (T * string * bool)) (self : MultiLangContainer T)
  : MultiLangContainer T :=
  match calls with
  | [] => self
  | (item, lang_code, allow_overwrite) :: calls' =>
      add_items calls' (add_item item lang_code allow_overwrite self).2
  end.

End MultiLangContainer.

(** [MultiLangPromptList] *)
Abbreviation MultiLangPromptList := (MultiLangContainer PromptList).

(** Running a mutating method of the object stored under [key]: the
    dictionary holds a reference, so the mutation shows in it. *)
Definition pym_entry {V A} (key : string) (m : PyM V A) : PyM (dict V) A :=
  fun d =>
    match PyDict.get key d with
    | Some v => let '(r, v') := m v in (r, PyDict.set key v' d)
    | None => (Raise UnknownPromptName, d)
    end.

(** Running a mutating method of an attribute of [self]. *)
Definition pym_attr {S S' A} (proj : S -> S') (upd : S' -> S -> S) (m : PyM S' A)
  : PyM S A :=
  fun s => let '(r, s') := m (proj s) in (r, upd s' s).

(** ** Parsed YAML documents

    What [yaml.safe_load] returns for the documents that are covered: a
    string, a sequence, a mapping (with string keys, in document order) or
    a scalar of another type: a number, a boolean, null or a date, none of
    which has a [strip] method, and which the module never looks into.
    Binary scalars ([!!binary], which load as [bytes]) are not covered:
    [bytes] has a [strip] method, so the loader would keep them as items of
    a [PromptList], whose items are declared, and modelled, as [str]. *)
#[local] Unset Elimination Schemes.
Inductive yaml : Type :=
  | YStr (s : string)
  | YSeq (items : list yaml)
  | YMap (entries : list (string * yaml))
  | YScalar (text : string).
#[local] Set Elimination Schemes.

(** A directory: the names [os.listdir] returns, in that order, each with
    the document that [yaml.safe_load] reads from the file. *)
Definition directory : Type := list (string * yaml).

(** The strings of a YAML sequence, as the comprehension of
    [PromptList.__init__] meets its items: [x.strip()] raises
    [AttributeError] on an item that is a sequence, a mapping or a scalar
    with no [strip] method. *)
Fixpoint str_items (items : list yaml) : result (list string) :=
  match items with
  | [] => Ok []
  | YStr s :: items' => try! rest <- str_items items'; Ok (s :: rest)
  | _ :: _ => Raise PyAttributeError
  end.

Section Engine.
Variable E : JinjaEngine.

(** [**kwargs] *)
Local Abbreviation kwargs := (gmap string (JinjaValue E)).

(** *** PromptTemplate *)

Record PromptTemplate : Type := mkPromptTemplate {
  pt_name : string;
  pt_jinja_template : JinjaTemplate E
}.

(** [PromptTemplate.__init__] *)
Definition PromptTemplate_init (name jinja_template_string : string)
  : result PromptTemplate :=
  try! t <- jinja_new E (PyStr.strip jinja_template_string);
  Ok {| pt_name := name; pt_jinja_template := t |}.

(** [PromptTemplate.render] *)
Definition PromptTemplate_render (self : PromptTemplate) (kw : kwargs) : result string :=
  jinja_render E (pt_jinja_template self) kw.

(** [PromptTemplate.get_parameters] *)
Definition PromptTemplate_get_parameters (self : PromptTemplate) : list string :=
  jinja_get_parameters E (pt_jinja_template self).

(** *** MultiLangPromptTemplate *)

Definition _FORBIDDEN_PARAM_NAMES : list string := ["lang_code"; "fallback_mode"].

Record MultiLangPromptTemplate : Type := mkMultiLangPromptTemplate {
  prompts_container : MultiLangContainer PromptTemplate
}.

(** [MultiLangPromptTemplate.__init__] *)
Definition MultiLangPromptTemplate_init (name : string) : MultiLangPromptTemplate :=
  {| prompts_container := MultiLangContainer_init name |}.

(** [MultiLangPromptTemplate.__len__] *)
Definition MultiLangPromptTemplate_len (self : MultiLangPromptTemplate) : nat :=
  MultiLangContainer_len (prompts_container self).

(** [MultiLangPromptTemplate.name] *)
Definition MultiLangPromptTemplate_name (self : MultiLangPromptTemplate) : string :=
  mlc_name (prompts_container self).

(** [MultiLangPromptTemplate.get_parameters]; with a non-zero length
    [next(iter(...))] cannot raise. *)
Definition MultiLangPromptTemplate_get_parameters (self : MultiLangPromptTemplate)
  : result (list string) :=
  if Nat.eqb (MultiLangPromptTemplate_len self) 0 then Raise NoTemplatesRegistered
  else
    match PyDict.values (lang2item (prompts_container self)) with
    | first_prompt_template :: _ => Ok (PromptTemplate_get_parameters first_prompt_template)
    | [] => Raise NoTemplatesRegistered
    end.

(** [MultiLangPromptTemplate.add_prompt_template] *)
Definition add_prompt_template (prompt_template : PromptTemplate)
    (lang_code : string) (allow_overwrite : bool) : PyM MultiLangPromptTemplate unit :=
  do! self <- pym_get;
  let incoming_parameters := PromptTemplate_get_parameters prompt_template in
  let contained_fobidden_parameters :=
    filter (fun n => n ∈ incoming_parameters) _FORBIDDEN_PARAM_NAMES in
  match contained_fobidden_parameters with
  | _ :: _ => pym_raise ForbiddenParameterNames
  | [] =>
      do! _ <- (if Nat.ltb 0 (MultiLangPromptTemplate_len self) then
                  do! parameters <- pym_lift (MultiLangPromptTemplate_get_parameters self);
                  if bool_decide (parameters <> incoming_parameters)
                  then pym_raise InconsistentParameters
                  else pym_ret tt
                else pym_ret tt);
      pym_attr prompts_container (fun c _ => {| prompts_container := c |})
        (add_item prompt_template lang_code allow_overwrite)
  end.

(** [MultiLangPromptTemplate.get_prompt_template] *)
Definition MultiLangPromptTemplate_get_prompt_template (self : MultiLangPromptTemplate)
    (lang_code : string) (fallback_mode : LanguageFallbackMode) : result PromptTemplate :=
  get_item (prompts_container self) lang_code fallback_mode.

(** [MultiLangPromptTemplate.render] *)
Definition MultiLangPromptTemplate_render (self : MultiLangPromptTemplate)
    (lang_code : string) (fallback_mode : LanguageFallbackMode) (kw : kwargs)
  : result string :=
  try! prompt_template <- MultiLangPromptTemplate_get_prompt_template self lang_code fallback_mode;
  PromptTemplate_render prompt_template kw.

(** *** PromptCollection *)

Record PromptCollection : Type := mkPromptCollection {
  multi_lang_prompt_templates : dict MultiLangPromptTemplate;
  multi_lang_prompt_lists : dict MultiLangPromptList;
  fallback_mode : LanguageFallbackMode
}.

Definition set_templates (d : dict MultiLangPromptTemplate) (self : PromptCollection)
  : PromptCollection :=
  {| multi_lang_prompt_templates := d;
     multi_lang_prompt_lists := multi_lang_prompt_lists self;
     fallback_mode := fallback_mode self |}.

Definition set_lists (d : dict MultiLangPromptList) (self : PromptCollection)
  : PromptCollection :=
  {| multi_lang_prompt_templates := multi_lang_prompt_templates self;
     multi_lang_prompt_lists := d;
     fallback_mode := fallback_mode self |}.

(** [self.fallback_mode = fallback_mode] *)
Definition set_fallback_mode (fm : LanguageFallbackMode) (self : PromptCollection)
  : PromptCollection :=
  {| multi_lang_prompt_templates := multi_lang_prompt_templates self;
     multi_lang_prompt_lists := multi_lang_prompt_lists self;
     fallback_mode := fm |}.

(** [PromptCollection._add_prompt_template] *)
Definition _add_prompt_template (name template_str lang_code : string)
  : PyM PromptCollection unit :=
  do! prompt_template <- pym_lift (PromptTemplate_init name template_str);
  do! self <- pym_get;
  do! _ <- (match PyDict.get name (multi_lang_prompt_templates self) with
            | None =>
                pym_put (set_templates
                           (PyDict.set name (MultiLangPromptTemplate_init name)
                              (multi_lang_prompt_templates self)) self)
            | Some _ => pym_ret tt
            end);
  pym_attr multi_lang_prompt_templates set_templates
    (pym_entry name (add_prompt_template prompt_template lang_code false)).

(** [PromptCollection._add_prompt_list] *)
Definition _add_prompt_list (name : string) (prompt_list : list yaml) (lang_code : string)
  : PyM PromptCollection unit :=
  do! self <- pym_get;
  do! _ <- (match PyDict.get name (multi_lang_prompt_lists self) with
            | None =>
                pym_put (set_lists
                           (PyDict.set name (MultiLangContainer_init name)
                              (multi_lang_prompt_lists self)) self)
            | Some _ => pym_ret tt
            end);
  do! items <- pym_lift (str_items prompt_list);
  pym_attr multi_lang_prompt_lists set_lists
    (pym_entry name (add_item (PromptList_init items) lang_code false)).

(** [PromptCollection._load_from_disc].  A [lang] entry that is not a
    string lies outside the [lang_code: str] contract of the module; in
    Python such a load ends in an exception as well (the entry [lang]
    itself is neither a [str] nor a [list], or its value is unhashable),
    and the model raises [NonStringLanguageCode] for it at once. *)
Definition _load_from_disc (prompts_dir : directory) : PyM PromptCollection unit :=
  pym_for prompts_dir (fun '(fn, data) =>
    if negb (PyStr.endswith fn ".yml" || PyStr.endswith fn ".yaml") then pym_ret tt
    else
      do! prompts_data <- pym_lift
        (match data with
         | YMap entries =>
             match PyDict.get "prompts" entries with
             | Some v => Ok v
             | None => Raise MissingPromptsKey
             end
         | _ => Raise PyTypeError
         end);
      do! prompts <- pym_lift
        (match prompts_data with
         | YMap entries => Ok entries
         | _ => Raise PyAttributeError
         end);
      do! lang_code <- pym_lift
        (match PyDict.get "lang" prompts with
         | None => Ok DEFAULT_LANG_CODE
         | Some (YStr code) => Ok code
         | Some _ => Raise NonStringLanguageCode
         end);
      pym_for (PyDict.items prompts) (fun '(prompt_name, prompt_template_or_list) =>
        match prompt_template_or_list with
        | YSeq items => _add_prompt_list prompt_name items lang_code
        | YStr template_str => _add_prompt_template prompt_name template_str lang_code
        | _ => pym_raise InvalidPromptType
        end)).

(** [PromptCollection.__init__]; the loader never reads [fallback_mode],
    which Python sets once the load is over. *)
Definition PromptCollection_init (prompts_dir : directory)
    (fm : LanguageFallbackMode) : result PromptCollection :=
  let self := {| multi_lang_prompt_templates := [];
                 multi_lang_prompt_lists := [];
                 fallback_mode := fm |} in
  match _load_from_disc prompts_dir self with
  | (Ok _, self') => Ok (set_fallback_mode fm self')
  | (Raise e, _) => Raise e
  end.

(** [PromptCollection.get_prompt_template_names] *)
Definition get_prompt_template_names (self : PromptCollection) : list string :=
  PyDict.keys (multi_lang_prompt_templates self).

(** [PromptCollection.get_prompt_list_names] *)
Definition get_prompt_list_names (self : PromptCollection) : list string :=
  PyDict.keys (multi_lang_prompt_lists self).

(** [PromptCollection.__len__] *)
Definition PromptCollection_len (self : PromptCollection) : nat :=
  length (multi_lang_prompt_templates self).

(** [PromptCollection.get_multilang_prompt_template] *)
Definition get_multilang_prompt_template (self : PromptCollection) (prompt_name : string)
  : result MultiLangPromptTemplate :=
  match PyDict.get prompt_name (multi_lang_prompt_templates self) with
  | Some t => Ok t
  | None => Raise UnknownPromptName
  end.

(** [PromptCollection.get_multilang_prompt_list] *)
Definition get_multilang_prompt_list (self : PromptCollection) (prompt_name : string)
  : result MultiLangPromptList :=
  match PyDict.get prompt_name (multi_lang_prompt_lists self) with
  | Some l => Ok l
  | None => Raise UnknownPromptName
  end.

(** [PromptCollection.get_prompt_template] *)
Definition PromptCollection_get_prompt_template (self : PromptCollection)
    (prompt_name lang_code : string) : result PromptTemplate :=
  try! mlpt <- get_multilang_prompt_template self prompt_name;
  MultiLangPromptTemplate_get_prompt_template mlpt lang_code (fallback_mode self).

(** [PromptCollection.get_prompt_template_parameters] *)
Definition get_prompt_template_parameters (self : PromptCollection) (prompt_name : string)
  : result (list string) :=
  try! mlpt <- get_multilang_prompt_template self prompt_name;
  MultiLangPromptTemplate_get_parameters mlpt.

(** [PromptCollection.get_prompt_list]: [get_item] is called with the
    language code alone, so with its default mode [EXCEPTION]. *)
Definition get_prompt_list (self : PromptCollection) (prompt_name lang_code : string)
  : result PromptList :=
  try! mlpl <- get_multilang_prompt_list self prompt_name;
  get_item mlpl lang_code EXCEPTION.

(** [PromptCollection.render_prompt_template] *)
Definition render_prompt_template (self : PromptCollection)
    (prompt_name lang_code : string) (kw : kwargs) : result string :=
  try! prompt_template <- PromptCollection_get_prompt_template self prompt_name lang_code;
  PromptTemplate_render prompt_template kw.

(** *** PromptFactoryBase *)

Record PromptFactoryBase : Type := mkPromptFactoryBase {
  lang_code : string;
  prompt_collection : PromptCollection
}.

(** [PromptFactoryBase.__init__] *)
Definition PromptFactoryBase_init (prompts_dir : directory) (lang : string)
    (fm : LanguageFallbackMode) : result PromptFactoryBase :=
  try! pc <- PromptCollection_init prompts_dir fm;
  Ok {| lang_code := lang; prompt_collection := pc |}.

(** [PromptFactoryBase._render_prompt] *)
Definition _render_prompt (self : PromptFactoryBase) (prompt_name : string) (kw : kwargs)
  : result string :=
  render_prompt_template (prompt_collection self) prompt_name (lang_code self) kw.

(** [PromptFactoryBase._get_prompt_list] *)
Definition _get_prompt_list (self : PromptFactoryBase) (prompt_name : string)
  : result PromptList :=
  get_prompt_list (prompt_collection self) prompt_name (lang_code self).

(** *** autogenerate_prompt_factory_module *)

(** The double quote. *)
Definition dq : string := String (ascii_of_nat 34) EmptyString.

(** The text the generated module starts with. *)
Definition generated_header : string :=
PyStr.join PyStr.nl
  [ "";
    "# ruff: noqa";
    "# black: skip";
    "# mypy: ignore-errors";
    "";
    "# NOTE: This module is auto-generated from interprompt.autogenerate_prompt_factory_module, do not edit manually!";
    "";
    "from interprompt.promt_template import PromptFactoryBase, PromptList";
    "from typing import Any";
    "";
    "class PromptFactory(PromptFactoryBase):";
    "    " +:+ dq +:+ dq +:+ dq;
    "    A class for retrieving and rendering prompt templates and prompt lists.";
    "    " +:+ dq +:+ dq +:+ dq;
    "" ].

(** The names and parameters the first loop of the generator visits. *)
Fixpoint template_signatures (prompt_collection : PromptCollection)
    (template_names : list string) : result (list (string * list string)) :=
match template_names with
| [] => Ok []
| template_name :: template_names' =>
    try! template_parameters <- get_prompt_template_parameters prompt_collection template_name;
    try! rest <- template_signatures prompt_collection template_names';
    Ok ((template_name, template_parameters) :: rest)
end.

(** The text added for one template (body of the first loop). *)
Definition create_method_code (signature : string * list string) : string :=
let '(template_name, template_parameters) := signature in
let render_call_str := dq +:+ template_name +:+ dq in
let '(method_params_str, render_call_str) :=
  if Nat.eqb (length template_parameters) 0 then ("", render_call_str)
  else
    (", *, " +:+ PyStr.join ", " ((fun param => param +:+ ": Any") <$> template_parameters),
     render_call_str +:+ ", "
       +:+ PyStr.join ", " ((fun param => param +:+ "=" +:+ param) <$> template_parameters)) in
PyStr.nl +:+ "    def create_" +:+ template_name +:+ "(self" +:+ method_params_str
  +:+ ") -> str:" +:+ PyStr.nl
  +:+ "        return self._render_prompt(" +:+ render_call_str +:+ ")" +:+ PyStr.nl.

(** The text added for one prompt list (body of the second loop). *)
Definition get_list_method_code (prompt_list_name : string) : string :=
PyStr.nl +:+ "    def get_list_" +:+ prompt_list_name +:+ "(self) -> PromptList:" +:+ PyStr.nl
  +:+ "        return self._get_prompt_list('" +:+ prompt_list_name +:+ "')" +:+ PyStr.nl.

(** [autogenerate_prompt_factory_module]: the text written to the target
    module. *)
Definition autogenerate_prompt_factory_module (prompts_dir : directory) : result string :=
try! prompt_collection <- PromptCollection_init prompts_dir EXCEPTION;
try! signatures <-
  template_signatures prompt_collection (get_prompt_template_names prompt_collection);
Ok (generated_header
      +:+ String.concat EmptyString (create_method_code <$> signatures)
      +:+ String.concat EmptyString
            (get_list_method_code <$> get_prompt_list_names prompt_collection)).

(** *** The generated class as Python

    The generated text is read as Python through the concrete syntax of the
    two shapes of method it is made of: [print_class] writes a class of
    such methods, [class_status] says whether the text compiles, and
    [call_method] runs a call of one of its methods on an instance.  A class
    whose text this reading does not cover (letters beyond ASCII in a name,
    a parameter that Python renames inside a class, a name that is no single
    identifier, other than the case of [name_then_name]) has the status
    [None]. *)



Fixpoint all_chars (p : ascii -> bool) (s : string) : bool :=
  match s with
  | EmptyString => true
  | String c r => p c && all_chars p r
  end.








(** [def get_name(self) -> PromptList:] with the body
    [return self._get_prompt_list('get_prompt')]. *)
Record getter : Type := mkGetter {
  get_name : string;
  get_prompt : string
}.



Definition print_getter (m : getter) : string :=
  PyStr.nl +:+ "    def " +:+ get_name m +:+ "(self) -> PromptList:" +:+ PyStr.nl
    +:+ "        return self._get_prompt_list('" +:+ get_prompt m +:+ "')" +:+ PyStr.nl.








Definition list_getter (prompt_list_name : string) : getter :=
  {| get_name := "get_list_" +:+ prompt_list_name; get_prompt := prompt_list_name |}.






End Engine.

Arguments pt_name {E} _.
Arguments pt_jinja_template {E} _.
Arguments prompts_container {E} _.
Arguments multi_lang_prompt_templates {E} _.
Arguments multi_lang_prompt_lists {E} _.
Arguments fallback_mode {E} _.
Arguments lang_code {E} _.
Arguments prompt_collection {E} _.

(** A mutating method of the collection that neither reads nor writes
    [fallback_mode]. *)
Definition ignores_fallback_mode (E : JinjaEngine) {A} (m : PyM (PromptCollection E) A)
  : Prop :=
  forall fm s,
    m (set_fallback_mode E fm s) = ((m s).1, set_fallback_mode E fm (m s).2).

(** Every template the index holds has a variant. *)
Definition templates_populated {E} (s : PromptCollection E) : Prop :=
  forall name mlpt,
    PyDict.get name (multi_lang_prompt_templates s) = Some mlpt ->
    lang2item (prompts_container mlpt) <> [].

(** ** A small template engine

    Modelled from the spec: an engine "that parses [{{ }}] placeholders and
    performs substitution" (section 1), whose parameters are "the set of
    free variable names the template body references" (section 3) and for
    which a variable "referenced by the template body but absent from the
    supplied bindings must surface as a rendering-engine error" (section
    4.2).  It gives the scenarios of the spec something to run on. *)
Module MiniJinja.

Inductive piece : Type :=
  | Text (s : string)
  | Var (x : string).

(** Splits a template into text and [{{ name }}] placeholders. *)
Fixpoint scan (s : string) (in_var : bool) (acc : string) : result (list piece) :=
  match s with
  | EmptyString =>
      if in_var then Raise (TemplateError "unexpected end of template")
      else Ok [Text acc]
  | String c s' =>
      match s' with
      | String c' s'' =>
          if negb in_var && Ascii.eqb c "{" && Ascii.eqb c' "{" then
            try! rest <- scan s'' true EmptyString; Ok (Text acc :: rest)
          else if in_var && Ascii.eqb c "}" && Ascii.eqb c' "}" then
            match PyStr.strip acc with
            | EmptyString => Raise (TemplateError "expected a name")
            | x => try! rest <- scan s'' false EmptyString; Ok (Var x :: rest)
            end
          else scan s' in_var (acc +:+ String c EmptyString)
      | EmptyString => scan s' in_var (acc +:+ String c EmptyString)
      end
  end.

Definition variables (t : list piece) : list string :=
  omap (fun p => match p with Var x => Some x | Text _ => None end) t.

Definition parameters (t : list piece) : list string :=
  merge_sort String.le (remove_dups (variables t)).

Fixpoint render (t : list piece) (kw : gmap string string) : result string :=
  match t with
  | [] => Ok EmptyString
  | Text s :: t' => try! rest <- render t' kw; Ok (s +:+ rest)
  | Var x :: t' =>
      match kw !! x with
      | Some v => try! rest <- render t' kw; Ok (v +:+ rest)
      | None => Raise (TemplateError "undefined variable")
      end
  end.

Definition engine : JinjaEngine :=
  {| JinjaTemplate := list piece;
     JinjaValue := string;
     jinja_new := fun s => scan s false EmptyString;
     jinja_render := render;
     jinja_get_parameters := parameters |}.

End MiniJinja.

(** ** The scenarios of the spec *)

(** [a.yaml]: top-level [lang: en], [prompts: {greet: "Hello {{name}}"}]. *)
Definition a_yaml : yaml :=
  YMap [("lang", YStr "en"); ("prompts", YMap [("greet", YStr "Hello {{name}}")])].

(** [b.yaml]: top-level [lang: fr], [prompts: {greet: "Bonjour {{name}}"}]. *)
Definition b_yaml : yaml :=
  YMap [("lang", YStr "fr"); ("prompts", YMap [("greet", YStr "Bonjour {{name}}")])].

Definition greet_dir : directory := [("a.yaml", a_yaml); ("b.yaml", b_yaml)].
Definition greet_dir_rev : directory := [("b.yaml", b_yaml); ("a.yaml", a_yaml)].

(** A file that defines [tips: ["Be kind", "Be brief"]]. *)
Definition tips_yaml : yaml :=
  YMap [("prompts", YMap [("tips", YSeq [YStr "Be kind"; YStr "Be brief"])])].

Definition tips_dir : directory := [("tips.yml", tips_yaml)].

(** The template [PromptTemplate(name, body)] over the small engine; the
    bodies used below all parse. *)
Definition sample_template (name body : string) : PromptTemplate MiniJinja.engine :=
  match PromptTemplate_init MiniJinja.engine name body with
  | Ok t => t
  | Raise _ => {| pt_name := name; pt_jinja_template := [] : JinjaTemplate MiniJinja.engine |}
  end.

(** A [MultiLangPromptTemplate] named [greet] that holds "Hello {{name}}"
    under the language code [en]. *)
Definition greet_en : MultiLangPromptTemplate MiniJinja.engine :=
  (add_prompt_template MiniJinja.engine (sample_template "greet" "Hello {{name}}") "en" false
     (MultiLangPromptTemplate_init MiniJinja.engine "greet")).2.

(** The directory of [a.yaml] alone, and a factory over it. *)
Definition hello_dir : directory := [("a.yaml", a_yaml)].

Definition hello_factory : PromptFactoryBase MiniJinja.engine :=
  match PromptFactoryBase_init MiniJinja.engine hello_dir DEFAULT_LANG_CODE EXCEPTION with
  | Ok factory => factory
  | Raise _ =>
      {| lang_code := DEFAULT_LANG_CODE;
         prompt_collection := {| multi_lang_prompt_templates := [];
                                 multi_lang_prompt_lists := [];
                                 fallback_mode := EXCEPTION |} |}
  end.





(** ** Sequences of calls and shapes of files *)

(** A sequence of [add_prompt_template] calls, each one caught or not: the
    state after all of them. *)
Fixpoint add_prompt_templates {E} (calls : list (PromptTemplate E * string * bool))
    (self : MultiLangPromptTemplate E) : MultiLangPromptTemplate E :=
  match calls with
  | [] => self
  | (prompt_template, lang, allow_overwrite) :: calls' =>
      add_prompt_templates calls'
        (add_prompt_template E prompt_template lang allow_overwrite self).2
  end.

(** The test of [_load_from_disc] on a file name. *)
Definition is_yaml_name (fn : string) : bool :=
  PyStr.endswith fn ".yml" || PyStr.endswith fn ".yaml".

(** [hasattr(item, "strip")]: of the documents covered, the strings. *)
Definition has_strip (item : yaml) : bool :=
  match item with
  | YStr _ => true
  | _ => false
  end.

(** A prompt body the loader accepts: a string, or a sequence of items
    that have a [strip] method. *)
Definition accepted_body (body : yaml) : Prop :=
  match body with
  | YStr _ => True
  | YSeq items => Forall (fun item => has_strip item = true) items
  | _ => False
  end.

(** A document the loader accepts: a mapping whose [prompts] entry is a
    mapping of accepted bodies. *)
Definition accepted_document (data : yaml) : Prop :=
  exists entries prompts,
    data = YMap entries
    /\ PyDict.get "prompts" entries = Some (YMap prompts)
    /\ Forall (fun entry => accepted_body entry.2) prompts.

(** The last character of [String c s]. *)
Fixpoint last_char (c : ascii) (s : string) : ascii :=
  match s with
  | EmptyString => c
  | String c' s' => last_char c' s'
  end.

(** A string with no whitespace at either end. *)
Definition no_space_at_ends (s : string) : bool :=
  match s with
  | EmptyString => true
  | String c r => negb (PyStr.isspace c) && negb (PyStr.isspace (last_char c r))
  end.

(** Every prompt list the index holds has a variant. *)
Definition lists_populated {E} (s : PromptCollection E) : Prop :=
  forall name mlpl,
    PyDict.get name (multi_lang_prompt_lists s) = Some mlpl ->
    lang2item mlpl <> [].

(** * Properties *)

(** ** Stripping *)

Example strip_both_ends :
  PyStr.strip ("  Hello {{name}} " +:+ PyStr.nl) = "Hello {{name}}".
Proof. reflexivity. Qed.

Example strip_keeps_inner_space : PyStr.strip " a  b " = "a  b".
Proof. reflexivity. Qed.

Example endswith_yaml :
  PyStr.endswith "a.yaml" ".yaml" = true /\ PyStr.endswith "a.yaml" ".yml" = false
  /\ PyStr.endswith "yml" ".yml" = false.
Proof. repeat split. Qed.

Lemma lstrip_head (s : string) :
  PyStr.lstrip s = EmptyString
  \/ exists c r, PyStr.lstrip s = String c r /\ PyStr.isspace c = false.
Proof.
  induction s as [|c s IH]; simpl; [by left|].
  destruct (PyStr.isspace c) eqn:Hc; [exact IH|].
  right. by exists c, s.
Qed.

Lemma rstrip_nonspace (c : ascii) (s : string) :
  PyStr.isspace c = false -> PyStr.rstrip (String c s) = String c (PyStr.rstrip s).
Proof.
  intros Hc. simpl. destruct (PyStr.rstrip s); [by rewrite Hc | done].
Qed.

Lemma rstrip_idem (s : string) : PyStr.rstrip (PyStr.rstrip s) = PyStr.rstrip s.
Proof.
  induction s as [|c s IH]; [done|].
  simpl. destruct (PyStr.rstrip s) as [|a r] eqn:Hr.
  - destruct (PyStr.isspace c) eqn:Hc; [done|]. simpl. by rewrite Hc.
  - change (PyStr.rstrip (String c (String a r))) with
      (match PyStr.rstrip (String a r) with
       | EmptyString => if PyStr.isspace c then EmptyString else String c EmptyString
       | x => String c x
       end).
    by rewrite IH.
Qed.

Lemma strip_idem (s : string) : PyStr.strip (PyStr.strip s) = PyStr.strip s.
Proof.
  unfold PyStr.strip.
  destruct (lstrip_head s) as [-> | (c & r & -> & Hc)]; [done|].
  rewrite (rstrip_nonspace c r Hc). simpl. rewrite Hc.
  rewrite <- (rstrip_nonspace c r Hc). apply rstrip_idem.
Qed.

(** The stripped body neither starts nor ends with whitespace. *)
Lemma strip_no_leading_space (s : string) (c : ascii) (r : string) :
  PyStr.strip s = String c r -> PyStr.isspace c = false.
Proof.
  unfold PyStr.strip.
  destruct (lstrip_head s) as [-> | (c' & r' & -> & Hc)]; [done|].
  rewrite (rstrip_nonspace c' r' Hc). by intros [= <- _].
Qed.

(** ** PromptList.to_string *)

(** C4 (code as written): for the items ["Be kind", "Be brief"],
    [to_string] returns "Be kind\n * Be brief": the separator carries the
    bullet, so the first item has none, and the result is not the string
    " * Be kind\n * Be brief" of the claim. *)
Theorem C4_to_string_first_item_unbulleted :
  to_string (PromptList_init ["Be kind"; "Be brief"])
    = "Be kind" +:+ PyStr.nl +:+ " * Be brief"
  /\ to_string (PromptList_init ["Be kind"; "Be brief"])
    <> " * Be kind" +:+ PyStr.nl +:+ " * Be brief".
Proof. split; [reflexivity | discriminate]. Qed.

(** Every item but the first is bulleted. *)
Lemma to_string_cons (x y : string) (items : list string) :
  to_string {| pl_items := x :: y :: items |}
  = PyStr.replace PyStr.LF (PyStr.nl +:+ "   ") x +:+ PyStr.nl +:+ " * "
      +:+ to_string {| pl_items := y :: items |}.
Proof. reflexivity. Qed.

(** ** Dictionaries *)

Section DictProperties.
Context {V : Type}.
Implicit Types (d : dict V) (k : string) (v : V).

Lemma get_set_eq k v d : PyDict.get k (PyDict.set k v d) = Some v.
Proof.
  induction d as [|[k' v'] d IH]; simpl.
  - by rewrite String.eqb_refl.
  - destruct (String.eqb_spec k' k) as [->|Hne]; simpl.
    + by rewrite String.eqb_refl.
    + by destruct (String.eqb_spec k' k).
Qed.

Lemma get_set_ne k k' v d :
  k <> k' -> PyDict.get k' (PyDict.set k v d) = PyDict.get k' d.
Proof.
  intros Hne. induction d as [|[k0 v0] d IH]; simpl.
  - by destruct (String.eqb_spec k k').
  - destruct (String.eqb_spec k0 k) as [->|Hne0]; simpl.
    + by destruct (String.eqb_spec k k').
    + by rewrite IH.
Qed.

Lemma contains_get k d : PyDict.contains k d = true <-> is_Some (PyDict.get k d).
Proof.
  unfold PyDict.contains. destruct (PyDict.get k d); split; try done.
Qed.

Lemma keys_set_present k v d :
  is_Some (PyDict.get k d) -> PyDict.keys (PyDict.set k v d) = PyDict.keys d.
Proof.
  induction d as [|[k0 v0] d IH]; simpl; [by intros [? ?]|].
  destruct (String.eqb_spec k0 k) as [->|Hne]; [done|].
  intros H. unfold PyDict.keys in *. simpl. f_equal. by apply IH.
Qed.

Lemma keys_set_absent k v d :
  PyDict.get k d = None -> PyDict.keys (PyDict.set k v d) = (PyDict.keys d ++ [k])%list.
Proof.
  induction d as [|[k0 v0] d IH]; simpl; [done|].
  destruct (String.eqb_spec k0 k) as [->|Hne]; [done|].
  intros H. unfold PyDict.keys in *. simpl. f_equal. by apply IH.
Qed.

(** The first entry of a dictionary after an assignment. *)
Lemma set_first k v d k0 v0 rest :
  PyDict.set k v d = (k0, v0) :: rest ->
  (k0 = k /\ v0 = v) \/ (k0 <> k /\ PyDict.get k0 d = Some v0).
Proof.
  destruct d as [|[k1 v1] d]; simpl.
  - intros [= <- <- _]. by left.
  - destruct (String.eqb_spec k1 k) as [->|Hne].
    + intros [= <- <- _]. by left.
    + intros [= <- <- _]. right. split; [done|]. by rewrite String.eqb_refl.
Qed.

Lemma get_first k v d : PyDict.get k ((k, v) :: d) = Some v.
Proof. simpl. by rewrite String.eqb_refl. Qed.

Lemma get_elem_of k v d : PyDict.get k d = Some v -> v ∈ PyDict.values d.
Proof.
  induction d as [|[k0 v0] d IH]; simpl; [done|].
  unfold PyDict.values in *. simpl.
  destruct (String.eqb k0 k).
  - intros [= ->]. apply list_elem_of_here.
  - intros H. apply list_elem_of_further. by apply IH.
Qed.

Lemma values_set k v d x :
  x ∈ PyDict.values (PyDict.set k v d) -> x = v \/ x ∈ PyDict.values d.
Proof.
  unfold PyDict.values.
  induction d as [|[k0 v0] d IH]; simpl.
  - intros ->%list_elem_of_singleton. by left.
  - destruct (String.eqb k0 k); simpl.
    + intros [->|H]%elem_of_cons; [by left|]. right. by apply list_elem_of_further.
    + intros [->|H]%elem_of_cons.
      * right. apply list_elem_of_here.
      * destruct (IH H) as [->|?]; [by left|]. right. by apply list_elem_of_further.
Qed.

Lemma set_nonempty k v d : PyDict.set k v d <> [].
Proof. destruct d as [|[k0 v0] d]; simpl; [done|]. by destruct (String.eqb k0 k). Qed.

End DictProperties.

(** ** _MultiLangContainer *)

Section ContainerProperties.
Context {T : Type}.
Implicit Types (c : MultiLangContainer T) (item : T) (lang : string).

Lemma add_item_eq item lang (allow_overwrite : bool) c :
  add_item item lang allow_overwrite c
  = if negb allow_overwrite && PyDict.contains lang (lang2item c)
    then (Raise DuplicateLanguage, c)
    else (Ok tt, {| mlc_name := mlc_name c;
                    lang2item := PyDict.set lang item (lang2item c) |}).
Proof.
  unfold add_item, pym_bind, pym_get. simpl.
  by destruct (negb allow_overwrite && PyDict.contains lang (lang2item c)).
Qed.

(** A call that returns has registered its item. *)
Lemma add_item_ok_get item lang (ow : bool) c c' :
  add_item item lang ow c = (Ok tt, c') -> PyDict.get lang (lang2item c') = Some item.
Proof.
  rewrite add_item_eq. destruct (negb ow && _); [done|].
  intros [= <-]. simpl. apply get_set_eq.
Qed.

(** Whatever its outcome, a call leaves the other languages alone ... *)
Lemma add_item_get_other item lang lang' (ow : bool) c :
  lang <> lang' ->
  PyDict.get lang' (lang2item (add_item item lang ow c).2) = PyDict.get lang' (lang2item c).
Proof.
  intros Hne. rewrite add_item_eq. destruct (negb ow && _); [done|].
  simpl. by apply get_set_ne.
Qed.

(** ... and its own language registered. *)
Lemma add_item_registered item lang (ow : bool) c :
  is_Some (PyDict.get lang (lang2item (add_item item lang ow c).2)).
Proof.
  rewrite add_item_eq.
  destruct (negb ow && PyDict.contains lang (lang2item c)) eqn:Hdup; simpl.
  - apply andb_true_iff in Hdup as [_ Hdup]. by apply contains_get.
  - rewrite get_set_eq. by eexists.
Qed.

Lemma add_items_get_other (calls : list (T * string * bool)) lang c :
  Forall (fun call => call.1.2 <> lang) calls ->
  PyDict.get lang (lang2item (add_items calls c)) = PyDict.get lang (lang2item c).
Proof.
  intros Hcalls. revert c.
  induction Hcalls as [|[[item' lang'] ow'] calls Hne _ IH]; intros c; [done|].
  simpl in *. rewrite IH. by apply add_item_get_other.
Qed.

Lemma get_item_exact c lang item (fm : LanguageFallbackMode) :
  PyDict.get lang (lang2item c) = Some item -> get_item c lang fm = Ok item.
Proof. unfold get_item. by intros ->. Qed.

Lemma get_item_exception c lang :
  get_item c lang EXCEPTION
  = match PyDict.get lang (lang2item c) with
    | Some item => Ok item
    | None => Raise LanguageNotFound
    end.
Proof. done. Qed.

(** Whatever the mode, [get_item] returns an item that is registered
    under some language. *)
Lemma get_item_registered c lang (fm : LanguageFallbackMode) item :
  get_item c lang fm = Ok item ->
  exists lang', PyDict.get lang' (lang2item c) = Some item.
Proof.
  unfold get_item. destruct (PyDict.get lang (lang2item c)) as [x|] eqn:Hget.
  - intros [= <-]. by exists lang.
  - destruct fm.
    + destruct (lang2item c) as [|[k x] d] eqn:Hd; simpl; [done|].
      intros [= <-]. exists k. apply get_first.
    + done.
    + destruct (PyDict.get DEFAULT_LANG_CODE (lang2item c)) as [x|] eqn:Hdef; [|done].
      intros [= <-]. by exists DEFAULT_LANG_CODE.
Qed.

Lemma add_items_values (calls : list (T * string * bool)) c item :
  item ∈ PyDict.values (lang2item (add_items calls c)) ->
  item ∈ PyDict.values (lang2item c) \/ item ∈ calls.*1.*1.
Proof.
  revert c. induction calls as [|[[item' lang'] ow'] calls IH]; intros c; simpl.
  - by left.
  - intros [H|H]%IH.
    + rewrite add_item_eq in H. destruct (negb ow' && _); simpl in H.
      * by left.
      * apply values_set in H as [->|H]; [right; apply list_elem_of_here | by left].
    + right. by apply list_elem_of_further.
Qed.

(** C5: the second of two [add_item] calls for one language code without
    [allow_overwrite] raises the duplicate-language error and leaves the
    container as the first call left it, with the first item in place; with
    [allow_overwrite] the second call returns, the language codes are the
    same as before, every mode of [get_item] returns the second item for
    that code, and whatever [get_item] returns afterwards is the second
    item or an item registered under another code. *)
Theorem C5_add_item_twice c (item1 item2 : T) lang :
  (let '(r1, c1) := add_item item1 lang false c in
   add_item item2 lang false c1 = (Raise DuplicateLanguage, c1)
   /\ get_item c1 lang EXCEPTION
      = match r1 with
        | Ok _ => Ok item1
        | Raise _ => get_item c lang EXCEPTION
        end)
  /\ (forall ow1 : bool,
        let c1 := (add_item item1 lang ow1 c).2 in
        exists c2,
          add_item item2 lang true c1 = (Ok tt, c2)
          /\ get_language_codes c2 = get_language_codes c1
          /\ (forall fm, get_item c2 lang fm = Ok item2)
          /\ (forall lang' fm x,
                get_item c2 lang' fm = Ok x ->
                x = item2
                \/ exists l, l <> lang /\ PyDict.get l (lang2item c1) = Some x)).
Proof.
  split.
  - pose proof (add_item_registered item1 lang false c) as Hreg.
    destruct (add_item item1 lang false c) as [r1 c1] eqn:Hfirst. simpl in Hreg.
    split.
    + rewrite add_item_eq. apply contains_get in Hreg. by rewrite Hreg.
    + rewrite add_item_eq in Hfirst.
      destruct (negb false && PyDict.contains lang (lang2item c)).
      * by injection Hfirst as <- <-.
      * injection Hfirst as <- <-. rewrite get_item_exception. simpl.
        by rewrite get_set_eq.
  - intros ow1 c1.
    pose proof (add_item_registered item1 lang ow1 c) as Hreg. fold c1 in Hreg.
    eexists. split; [by rewrite add_item_eq|]. split; [|split].
    + unfold get_language_codes. simpl. by apply keys_set_present.
    + intros fm. apply get_item_exact. simpl. apply get_set_eq.
    + intros lang' fm x [l Hl]%get_item_registered. simpl in Hl.
      destruct (decide (l = lang)) as [->|Hne].
      * rewrite get_set_eq in Hl. left. congruence.
      * right. exists l. split; [done|]. by rewrite get_set_ne in Hl.
Qed.

(** C6: once [add_item(item, lang)] has returned, [get_item(lang)] in mode
    [EXCEPTION] returns that item, whatever the container held before and
    whatever [add_item] calls for other languages follow. *)
Theorem C6_add_item_get_item c c1 item lang (allow_overwrite : bool)
    (after : list (T * string * bool)) :
  add_item item lang allow_overwrite c = (Ok tt, c1) ->
  Forall (fun call => call.1.2 <> lang) after ->
  get_item (add_items after c1) lang EXCEPTION = Ok item.
Proof.
  intros Hadd Hafter. apply get_item_exact.
  rewrite add_items_get_other by done. by eapply add_item_ok_get.
Qed.

(** C7: in mode [ANY], [get_item] raises exactly on the empty container
    (and then the no-items error); otherwise it returns a registered item:
    the one of the requested language when there is one, else the first in
    insertion order.  On a container built by [add_item] calls the item is
    one that a call passed in. *)
Theorem C7_get_item_any c lang :
  (is_ok (get_item c lang ANY) = false <-> MultiLangContainer_len c = 0)
  /\ match get_item c lang ANY with
     | Ok item =>
         item ∈ PyDict.values (lang2item c)
         /\ match PyDict.get lang (lang2item c) with
            | Some exact => item = exact
            | None => head (PyDict.values (lang2item c)) = Some item
            end
     | Raise e => e = NoItemsRegistered
     end
  /\ (forall name (calls : list (T * string * bool)) item,
        get_item (add_items calls (MultiLangContainer_init name)) lang ANY = Ok item ->
        item ∈ calls.*1.*1).
Proof.
  split; [|split].
  - unfold get_item, MultiLangContainer_len.
    destruct (lang2item c) as [|[k x] d]; simpl; [done|].
    by destruct (if String.eqb k lang then Some x else PyDict.get lang d).
  - unfold get_item.
    destruct (PyDict.get lang (lang2item c)) as [x|] eqn:Hget.
    + split; [by eapply get_elem_of | done].
    + destruct (lang2item c) as [|[k x] d]; simpl; [done|].
      split; [apply list_elem_of_here | done].
  - intros name calls item [l Hl]%get_item_registered.
    apply get_elem_of, add_items_values in Hl as [Hl|Hl]; [|done].
    by apply elem_of_nil in Hl.
Qed.

End ContainerProperties.

Lemma C6_add_item_get_item_witness :
  get_item
    (add_items [("Bonjour", "fr", false); ("Hallo", "de", true)]
       (add_item "Hello" "en" false
          (add_items [("Hola", "es", false)] (MultiLangContainer_init "greet"))).2)
    "en" EXCEPTION
  = Ok "Hello".
Proof.
  apply (C6_add_item_get_item
           (add_items [("Hola", "es", false)] (MultiLangContainer_init "greet"))
           _ "Hello" "en" false).
  - reflexivity.
  - repeat constructor; discriminate.
Defined.

(** ** The small engine *)

Lemma MiniJinja_parameters_NoDup (t : list MiniJinja.piece) :
  NoDup (MiniJinja.parameters t).
Proof.
  unfold MiniJinja.parameters. rewrite merge_sort_Permutation. apply NoDup_remove_dups.
Qed.

Lemma MiniJinja_parameters_Sorted (t : list MiniJinja.piece) :
  Sorted String.le (MiniJinja.parameters t).
Proof. apply (Sorted_merge_sort String.le). Qed.

(** The parameters of the small engine are the variables of the body. *)
Lemma MiniJinja_parameters_elem_of (t : list MiniJinja.piece) (x : string) :
  x ∈ MiniJinja.parameters t <-> x ∈ MiniJinja.variables t.
Proof.
  unfold MiniJinja.parameters. rewrite merge_sort_Permutation. apply elem_of_remove_dups.
Qed.

(** The small engine returns its parameters as a set. *)
Lemma MiniJinja_canonical : canonical_parameters MiniJinja.engine.
Proof.
  intros t1 t2 Hsame. simpl in *.
  apply (Sorted_unique String.le); try apply MiniJinja_parameters_Sorted.
  apply NoDup_Permutation; auto using MiniJinja_parameters_NoDup.
Qed.

(** ** PromptTemplate and MultiLangPromptTemplate *)

Section TemplateProperties.
Variable E : JinjaEngine.
Implicit Types (t : PromptTemplate E) (mlpt : MultiLangPromptTemplate E) (lang : string).

(** The reserved names among the parameters of [t]. *)
Lemma forbidden_filter t :
  match filter (fun n => n ∈ PromptTemplate_get_parameters E t) _FORBIDDEN_PARAM_NAMES with
  | [] => ("lang_code" ∉ PromptTemplate_get_parameters E t)
          /\ ("fallback_mode" ∉ PromptTemplate_get_parameters E t)
  | _ :: _ => ("lang_code" ∈ PromptTemplate_get_parameters E t)
              \/ ("fallback_mode" ∈ PromptTemplate_get_parameters E t)
  end.
Proof.
  unfold _FORBIDDEN_PARAM_NAMES.
  rewrite !filter_cons, filter_nil.
  destruct (decide ("lang_code" ∈ PromptTemplate_get_parameters E t));
    destruct (decide ("fallback_mode" ∈ PromptTemplate_get_parameters E t)); auto.
Qed.

Lemma add_prompt_template_eq t lang (allow_overwrite : bool) mlpt :
  add_prompt_template E t lang allow_overwrite mlpt
  = match filter (fun n => n ∈ PromptTemplate_get_parameters E t) _FORBIDDEN_PARAM_NAMES with
    | _ :: _ => (Raise ForbiddenParameterNames, mlpt)
    | [] =>
        match head (PyDict.values (lang2item (prompts_container mlpt))) with
        | Some first =>
            if bool_decide (PromptTemplate_get_parameters E first
                            <> PromptTemplate_get_parameters E t)
            then (Raise InconsistentParameters, mlpt)
            else
              let '(r, c) := add_item t lang allow_overwrite (prompts_container mlpt) in
              (r, {| prompts_container := c |})
        | None =>
            let '(r, c) := add_item t lang allow_overwrite (prompts_container mlpt) in
            (r, {| prompts_container := c |})
        end
    end.
Proof.
  unfold add_prompt_template, pym_bind, pym_get, pym_attr, pym_lift, pym_raise, pym_ret.
  destruct (filter _ _); [|done].
  unfold MultiLangPromptTemplate_get_parameters, MultiLangPromptTemplate_len,
    MultiLangContainer_len.
  destruct mlpt as [[name [|[k first] d]]]; simpl; [done|].
  by destruct (bool_decide _).
Qed.

(** C8: [add_prompt_template] raises the reserved-name error exactly when
    "lang_code" or "fallback_mode" is among the parameters of the template,
    whatever the language code, the overwrite flag and the variants already
    registered; the container is then left as it was. *)
Theorem C8_forbidden_parameter_names t lang (allow_overwrite : bool) mlpt :
  let reserved := ("lang_code" ∈ PromptTemplate_get_parameters E t)
                  \/ ("fallback_mode" ∈ PromptTemplate_get_parameters E t) in
  ((add_prompt_template E t lang allow_overwrite mlpt).1 = Raise ForbiddenParameterNames
   <-> reserved)
  /\ (add_prompt_template E t lang allow_overwrite mlpt
        = (Raise ForbiddenParameterNames, mlpt)
      <-> reserved).
Proof.
  intros reserved. unfold reserved. clear reserved.
  rewrite add_prompt_template_eq. pose proof (forbidden_filter t) as Hf.
  destruct (filter _ _) as [|n ns]; simpl.
  - destruct Hf as [H1 H2].
    match goal with
    | |- (?X.1 = _ <-> _) /\ _ =>
        assert (X.1 <> Raise ForbiddenParameterNames) as Hno
    end.
    { assert (forall c, (add_item t lang allow_overwrite c).1
                        <> Raise ForbiddenParameterNames) as Hadd.
      { intros c. rewrite add_item_eq. by destruct (negb allow_overwrite && _). }
      specialize (Hadd (prompts_container mlpt)).
      destruct (head _) as [first|].
      - destruct (bool_decide _); [done|].
        by destruct (add_item t lang allow_overwrite (prompts_container mlpt)).
      - by destruct (add_item t lang allow_overwrite (prompts_container mlpt)). }
    split; (split; [|intros [?|?]; done]).
    + done.
    + intros HX. by rewrite HX in Hno.
  - done.
Qed.

(** C3 (amended): for a variant [t] without reserved parameter names added
    to a template whose first variant is [first], the call returns exactly
    when the parameter sets of [t] and [first] are equal and the language
    code is free or may be overwritten; when the sets differ it raises the
    inconsistent-parameters error and leaves the template as it was, in
    whichever order two such variants arrive; when the sets are equal and
    the language code is taken it raises the duplicate-language error. *)
Theorem C3_parameter_consistency first t lang (allow_overwrite : bool) mlpt :
  canonical_parameters E ->
  head (PyDict.values (lang2item (prompts_container mlpt))) = Some first ->
  "lang_code" ∉ PromptTemplate_get_parameters E t ->
  "fallback_mode" ∉ PromptTemplate_get_parameters E t ->
  let same_set :=
    forall p, p ∈ PromptTemplate_get_parameters E t
              <-> p ∈ PromptTemplate_get_parameters E first in
  let free :=
    allow_overwrite = true
    \/ PyDict.get lang (lang2item (prompts_container mlpt)) = None in
  ((add_prompt_template E t lang allow_overwrite mlpt).1 = Ok tt <-> same_set /\ free)
  /\ (~ same_set ->
      add_prompt_template E t lang allow_overwrite mlpt
      = (Raise InconsistentParameters, mlpt))
  /\ (same_set -> ~ free ->
      add_prompt_template E t lang allow_overwrite mlpt = (Raise DuplicateLanguage, mlpt))
  /\ (~ same_set -> forall name lang1 (ow1 : bool),
      let fresh := (add_prompt_template E first lang1 ow1
                      (MultiLangPromptTemplate_init E name)).2 in
      "lang_code" ∉ PromptTemplate_get_parameters E first ->
      "fallback_mode" ∉ PromptTemplate_get_parameters E first ->
      add_prompt_template E t lang allow_overwrite fresh
      = (Raise InconsistentParameters, fresh)).
Proof.
  intros Hcanon Hfirst Hlc Hfm same_set free.
  assert (forall t', "lang_code" ∉ PromptTemplate_get_parameters E t' ->
                     "fallback_mode" ∉ PromptTemplate_get_parameters E t' ->
                     filter (fun n => n ∈ PromptTemplate_get_parameters E t')
                       _FORBIDDEN_PARAM_NAMES = []) as Hnone.
  { intros t' H1 H2. pose proof (forbidden_filter t') as Hf.
    destruct (filter _ _); [done|]. by destruct Hf. }
  assert (forall m, ~ same_set ->
            head (PyDict.values (lang2item (prompts_container m))) = Some first ->
            add_prompt_template E t lang allow_overwrite m
            = (Raise InconsistentParameters, m)) as Hdiff.
  { intros m Hns Hm. rewrite add_prompt_template_eq, (Hnone t Hlc Hfm), Hm.
    rewrite bool_decide_true; [done|].
    intros Heq. apply Hns. intros p. by rewrite Heq. }
  split; [|split; [|split]].
  - rewrite add_prompt_template_eq, (Hnone t Hlc Hfm), Hfirst.
    destruct (decide (PromptTemplate_get_parameters E first
                      = PromptTemplate_get_parameters E t)) as [Heq|Hne].
    + rewrite bool_decide_false by (by intros ?).
      assert same_set as Hsame by (intros p; by rewrite Heq).
      rewrite add_item_eq. unfold free.
      destruct allow_overwrite; simpl; [split; [intros _; split; [done | by left] | done]|].
      unfold PyDict.contains.
      destruct (PyDict.get lang (lang2item (prompts_container mlpt))); simpl.
      * split; [done|]. by intros [_ [?|?]].
      * split; [|done]. intros _. split; [done | by right].
    + rewrite bool_decide_true by done. simpl. split; [done|].
      intros [Hsame _]. destruct Hne. symmetry.
      apply (Hcanon (pt_jinja_template t) (pt_jinja_template first)), Hsame.
  - intros Hns. by apply Hdiff.
  - intros Hsame Hnfree.
    rewrite add_prompt_template_eq, (Hnone t Hlc Hfm), Hfirst.
    rewrite bool_decide_false.
    2:{ intros Hne. apply Hne. symmetry.
        apply (Hcanon (pt_jinja_template t) (pt_jinja_template first)), Hsame. }
    rewrite add_item_eq. unfold free in Hnfree.
    destruct allow_overwrite; simpl; [destruct Hnfree; by left|].
    unfold PyDict.contains.
    destruct (PyDict.get lang (lang2item (prompts_container mlpt))); simpl;
      [by destruct mlpt|].
    destruct Hnfree. by right.
  - intros Hns name lang1 ow1 fresh H1 H2. apply Hdiff; [done|].
    unfold fresh. rewrite add_prompt_template_eq, (Hnone first H1 H2). simpl.
    rewrite add_item_eq. simpl. by rewrite andb_false_r.
Qed.

(** C10: the body is stripped at construction, so the template built from
    [s] and the one built from [s.strip()] are the same template: the same
    outcome of the constructor, of [render] for every binding, and of
    [get_parameters]. *)
Theorem C10_strip_at_construction (name s : string) :
  PromptTemplate_init E name (PyStr.strip s) = PromptTemplate_init E name s
  /\ (forall kw,
        (try! t <- PromptTemplate_init E name (PyStr.strip s); PromptTemplate_render E t kw)
        = (try! t <- PromptTemplate_init E name s; PromptTemplate_render E t kw))
  /\ (try! t <- PromptTemplate_init E name (PyStr.strip s);
      Ok (PromptTemplate_get_parameters E t))
     = (try! t <- PromptTemplate_init E name s; Ok (PromptTemplate_get_parameters E t))
  /\ PromptTemplate_init E name s
     = (try! body <- jinja_new E (PyStr.strip s);
        Ok {| pt_name := name; pt_jinja_template := body |}).
Proof.
  assert (PromptTemplate_init E name (PyStr.strip s) = PromptTemplate_init E name s) as Heq.
  { unfold PromptTemplate_init. by rewrite strip_idem. }
  repeat split; try done; intros; by rewrite Heq.
Qed.

End TemplateProperties.

Lemma C3_parameter_consistency_witness :
  (add_prompt_template MiniJinja.engine
     (sample_template "greet" "Bonjour {{name}}") "fr" false greet_en).1 = Ok tt
  /\ add_prompt_template MiniJinja.engine
       (sample_template "greet" "Bonjour {{nom}}") "fr" false greet_en
     = (Raise InconsistentParameters, greet_en).
Proof.
  split.
  - destruct (C3_parameter_consistency MiniJinja.engine
                (sample_template "greet" "Hello {{name}}")
                (sample_template "greet" "Bonjour {{name}}") "fr" false greet_en
                MiniJinja_canonical eq_refl) as (Hiff & _).
    + apply (bool_decide_unpack _); exact I.
    + apply (bool_decide_unpack _); exact I.
    + apply Hiff. split; [done | by right].
  - destruct (C3_parameter_consistency MiniJinja.engine
                (sample_template "greet" "Hello {{name}}")
                (sample_template "greet" "Bonjour {{nom}}") "fr" false greet_en
                MiniJinja_canonical eq_refl) as (_ & Hdiff & _).
    + apply (bool_decide_unpack _); exact I.
    + apply (bool_decide_unpack _); exact I.
    + apply Hdiff. intros Hsame.
      assert ("nom" ∉ PromptTemplate_get_parameters MiniJinja.engine
                        (sample_template "greet" "Hello {{name}}")) as Hnot.
      { apply (bool_decide_unpack _); exact I. }
      apply Hnot, Hsame. apply (bool_decide_unpack _); exact I.
Defined.

(** C3 (as stated) fails on the code: a variant with the parameter set of
    the first one is refused when its language code is taken, and a variant
    with another parameter set that names a reserved parameter is refused
    with the reserved-name error, not the mismatch error. *)
Lemma C3_counterexample :
  (PromptTemplate_get_parameters MiniJinja.engine (sample_template "greet" "Hi {{name}}")
   = PromptTemplate_get_parameters MiniJinja.engine (sample_template "greet" "Hello {{name}}")
   /\ add_prompt_template MiniJinja.engine
        (sample_template "greet" "Hi {{name}}") "en" false greet_en
      = (Raise DuplicateLanguage, greet_en))
  /\ (PromptTemplate_get_parameters MiniJinja.engine
        (sample_template "greet" "Hi {{lang_code}}") = ["lang_code"]
      /\ PromptTemplate_get_parameters MiniJinja.engine
           (sample_template "greet" "Hello {{name}}") = ["name"]
      /\ add_prompt_template MiniJinja.engine
           (sample_template "greet" "Hi {{lang_code}}") "fr" false greet_en
         = (Raise ForbiddenParameterNames, greet_en)).
Proof. repeat split. Qed.

(** ** PromptCollection *)

Section CollectionProperties.
Variable E : JinjaEngine.
Implicit Types (pc : PromptCollection E) (fm : LanguageFallbackMode).

(** [get_prompt_list] does not read the fallback mode of the collection. *)
Lemma get_prompt_list_set_fallback_mode pc fm (prompt_name lang : string) :
  get_prompt_list E (set_fallback_mode E fm pc) prompt_name lang
  = get_prompt_list E pc prompt_name lang.
Proof. done. Qed.

(** [get_prompt_list] is the exact lookup, whatever the mode. *)
Lemma get_prompt_list_exact pc (prompt_name lang : string) :
  get_prompt_list E pc prompt_name lang
  = match PyDict.get prompt_name (multi_lang_prompt_lists pc) with
    | None => Raise UnknownPromptName
    | Some mlpl =>
        match PyDict.get lang (lang2item mlpl) with
        | Some l => Ok l
        | None => Raise LanguageNotFound
        end
    end.
Proof.
  unfold get_prompt_list, get_multilang_prompt_list.
  by destruct (PyDict.get prompt_name (multi_lang_prompt_lists pc)).
Qed.

(** C2 (code as written): the directory of the file that defines
    [tips: ["Be kind", "Be brief"]] loads under every fallback mode, the
    list being registered under the language code [default] alone; for the
    code [fr], [get_prompt_list] raises the language-not-found error under
    the modes [ANY] and [USE_DEFAULT_LANG] too, where the claim has it
    return the registered list. *)
Theorem C2_get_prompt_list_ignores_fallback_mode fm :
  exists pc mlpl,
    PromptCollection_init E tips_dir fm = Ok pc
    /\ fallback_mode pc = fm
    /\ get_multilang_prompt_list E pc "tips" = Ok mlpl
    /\ get_language_codes mlpl = [DEFAULT_LANG_CODE]
    /\ get_item mlpl "fr" ANY = Ok (PromptList_init ["Be kind"; "Be brief"])
    /\ get_item mlpl "fr" USE_DEFAULT_LANG = Ok (PromptList_init ["Be kind"; "Be brief"])
    /\ get_prompt_list E pc "tips" DEFAULT_LANG_CODE
       = Ok (PromptList_init ["Be kind"; "Be brief"])
    /\ get_prompt_list E pc "tips" "fr" = Raise LanguageNotFound.
Proof. do 2 eexists. repeat split; reflexivity. Qed.

End CollectionProperties.

(** C1 (code as written): the loader looks for [lang] inside the [prompts]
    mapping, not at the top level of the file, so [a.yaml] and [b.yaml]
    both register [greet] under the code [default]: the load of the
    directory raises the duplicate-language error, in either order of the
    two files and under every fallback mode, where the claim has the
    construction succeed.  Each file alone loads, with [greet] registered
    under [default]. *)
Theorem C1_top_level_lang_ignored (fm : LanguageFallbackMode) :
  PromptCollection_init MiniJinja.engine greet_dir fm = Raise DuplicateLanguage
  /\ PromptCollection_init MiniJinja.engine greet_dir_rev fm = Raise DuplicateLanguage
  /\ (exists pc mlpt,
        PromptCollection_init MiniJinja.engine [("b.yaml", b_yaml)] fm = Ok pc
        /\ get_multilang_prompt_template MiniJinja.engine pc "greet" = Ok mlpt
        /\ get_language_codes (prompts_container mlpt) = [DEFAULT_LANG_CODE]
        /\ render_prompt_template MiniJinja.engine pc "greet" DEFAULT_LANG_CODE
             {[ "name" := "Alice" ]} = Ok "Bonjour Alice").
Proof.
  split; [by destruct fm | split; [by destruct fm|]].
  do 2 eexists. repeat split; reflexivity.
Qed.

(** ** The loader and the generated factory *)

(** The method the generator emits for a template [greet] with the
    parameter [name]. *)
Example create_method_code_greet :
  create_method_code ("greet", ["name"])
  = PyStr.nl +:+ "    def create_greet(self, *, name: Any) -> str:" +:+ PyStr.nl
    +:+ "        return self._render_prompt(" +:+ dq +:+ "greet" +:+ dq +:+ ", name=name)"
    +:+ PyStr.nl.
Proof. reflexivity. Qed.

Example create_method_code_no_parameters :
  create_method_code ("intro", [])
  = PyStr.nl +:+ "    def create_intro(self) -> str:" +:+ PyStr.nl
    +:+ "        return self._render_prompt(" +:+ dq +:+ "intro" +:+ dq +:+ ")" +:+ PyStr.nl.
Proof. reflexivity. Qed.

(** The small engine on the bodies of the scenarios. *)
Example MiniJinja_greet :
  PromptTemplate_get_parameters MiniJinja.engine
    (sample_template "pair" "{{ b }} and {{a}}, {{ b}}") = ["a"; "b"]
  /\ PromptTemplate_render MiniJinja.engine (sample_template "greet" "Bonjour {{name}}")
       {[ "name" := "Alice" ]} = Ok "Bonjour Alice".
Proof. split; reflexivity. Qed.

Section FactoryProperties.
Variable E : JinjaEngine.
Implicit Types (s : PromptCollection E) (fm : LanguageFallbackMode).

Lemma ignores_ret {A} (a : A) : ignores_fallback_mode E (pym_ret a).
Proof. done. Qed.

Lemma ignores_raise {A} (e : PyErr) : ignores_fallback_mode E (@pym_raise _ A e).
Proof. done. Qed.

Lemma ignores_lift {A} (r : result A) : ignores_fallback_mode E (pym_lift r).
Proof. done. Qed.

Lemma ignores_bind {A B} (m : PyM (PromptCollection E) A)
    (k : A -> PyM (PromptCollection E) B) :
  ignores_fallback_mode E m -> (forall a, ignores_fallback_mode E (k a)) ->
  ignores_fallback_mode E (pym_bind m k).
Proof.
  intros Hm Hk fm s. unfold pym_bind. rewrite Hm.
  destruct (m s) as [[a|e] s']; simpl; [apply Hk | done].
Qed.

Lemma ignores_for {A} (xs : list A) (body : A -> PyM (PromptCollection E) unit) :
  (forall x, ignores_fallback_mode E (body x)) -> ignores_fallback_mode E (pym_for xs body).
Proof.
  intros Hbody. induction xs as [|x xs IH]; simpl; [apply ignores_ret|].
  apply ignores_bind; [apply Hbody | intros _; apply IH].
Qed.

Lemma ignores_add_prompt_template (name template_str lang : string) :
  ignores_fallback_mode E (_add_prompt_template E name template_str lang).
Proof.
  intros fm [ts ls f].
  unfold _add_prompt_template, pym_bind, pym_lift, pym_get, pym_put, pym_ret,
    pym_attr, pym_entry, set_fallback_mode, set_templates.
  destruct (PromptTemplate_init E name template_str) as [t|e]; [|reflexivity]. simpl.
  destruct (PyDict.get name ts) as [m|] eqn:Hget; simpl.
  - rewrite Hget. destruct (add_prompt_template E t lang false m); reflexivity.
  - rewrite get_set_eq. destruct (add_prompt_template E t lang false _); reflexivity.
Qed.

Lemma ignores_add_prompt_list (name : string) (prompt_list : list yaml) (lang : string) :
  ignores_fallback_mode E (_add_prompt_list E name prompt_list lang).
Proof.
  intros fm [ts ls f].
  unfold _add_prompt_list, pym_bind, pym_lift, pym_get, pym_put, pym_ret,
    pym_attr, pym_entry, set_fallback_mode, set_lists. simpl.
  destruct (PyDict.get name ls) as [m|] eqn:Hget; simpl.
  - destruct (str_items prompt_list); [|reflexivity]. simpl. rewrite Hget.
    destruct (add_item _ lang false m); reflexivity.
  - destruct (str_items prompt_list); [|reflexivity]. simpl. rewrite get_set_eq.
    destruct (add_item _ lang false _); reflexivity.
Qed.

Lemma ignores_load_from_disc (prompts_dir : directory) :
  ignores_fallback_mode E (_load_from_disc E prompts_dir).
Proof.
  apply ignores_for. intros [fn data].
  destruct (negb _); [apply ignores_ret|].
  apply ignores_bind; [apply ignores_lift|]. intros prompts_data.
  apply ignores_bind; [apply ignores_lift|]. intros prompts.
  apply ignores_bind; [apply ignores_lift|]. intros lang.
  apply ignores_for. intros [prompt_name [template_str|items|entries|text]].
  - apply ignores_add_prompt_template.
  - apply ignores_add_prompt_list.
  - apply ignores_raise.
  - apply ignores_raise.
Qed.

(** The load does not depend on the fallback mode the collection is built
    with. *)
Lemma PromptCollection_init_fallback_mode (prompts_dir : directory) fm fm' pc :
  PromptCollection_init E prompts_dir fm = Ok pc ->
  PromptCollection_init E prompts_dir fm' = Ok (set_fallback_mode E fm' pc).
Proof.
  unfold PromptCollection_init.
  set (s0 := mkPromptCollection E [] [] fm).
  change (mkPromptCollection E [] [] fm') with (set_fallback_mode E fm' s0).
  rewrite (ignores_load_from_disc prompts_dir fm' s0).
  destruct (_load_from_disc E prompts_dir s0) as [r s']. simpl.
  destruct r as [[]|e]; [|discriminate]. intros [= <-]. reflexivity.
Qed.

Lemma add_prompt_template_ok_nonempty (t : PromptTemplate E) (lang : string) (ow : bool)
    (mlpt mlpt' : MultiLangPromptTemplate E) :
  add_prompt_template E t lang ow mlpt = (Ok tt, mlpt') ->
  lang2item (prompts_container mlpt') <> [].
Proof.
  rewrite add_prompt_template_eq.
  destruct (filter _ _); [|done].
  assert (forall r c, add_item t lang ow (prompts_container mlpt) = (r, c) ->
                      r = Ok tt -> lang2item c <> []) as Hadd.
  { intros r c. rewrite add_item_eq. destruct (negb ow && _).
    - by intros [= <- <-].
    - intros [= <- <-] _. apply set_nonempty. }
  destruct (head _) as [first|].
  - destruct (bool_decide _); [done|].
    destruct (add_item t lang ow (prompts_container mlpt)) as [r c] eqn:Hc.
    intros [= -> <-]. by eapply Hadd.
  - destruct (add_item t lang ow (prompts_container mlpt)) as [r c] eqn:Hc.
    intros [= -> <-]. by eapply Hadd.
Qed.

Lemma populated_add_prompt_template (name template_str lang : string) s s' :
  templates_populated s ->
  _add_prompt_template E name template_str lang s = (Ok tt, s') ->
  templates_populated s'.
Proof.
  intros Hs.
  unfold _add_prompt_template, pym_bind, pym_lift, pym_get, pym_put, pym_ret,
    pym_attr, pym_entry.
  destruct (PromptTemplate_init E name template_str) as [t|e]; [|done]. simpl.
  assert (forall d m0 sx,
            (forall n m, n <> name -> PyDict.get n d = Some m ->
                         lang2item (prompts_container m) <> []) ->
            (let '(r, d') :=
               let '(r, v') := add_prompt_template E t lang false m0 in
               (r, PyDict.set name v' d) in
             (r, set_templates E d' sx)) = (Ok tt, s') ->
            templates_populated s') as Hstep.
  { intros d m0 sx Hd.
    destruct (add_prompt_template E t lang false m0) as [r m1] eqn:Hadd.
    intros [= -> <-]. intros n m. simpl.
    destruct (decide (n = name)) as [->|Hne].
    - rewrite get_set_eq. intros [= <-]. by eapply add_prompt_template_ok_nonempty.
    - rewrite get_set_ne by done. by apply Hd. }
  destruct (PyDict.get name (multi_lang_prompt_templates s)) as [m|] eqn:Hget; simpl.
  - rewrite Hget. apply Hstep. intros n m' _. apply Hs.
  - rewrite get_set_eq. apply Hstep.
    intros n m' Hne. rewrite get_set_ne by done. apply Hs.
Qed.

Lemma templates_add_prompt_list (name : string) (prompt_list : list yaml) (lang : string) s :
  multi_lang_prompt_templates (_add_prompt_list E name prompt_list lang s).2
  = multi_lang_prompt_templates s.
Proof.
  unfold _add_prompt_list, pym_bind, pym_lift, pym_get, pym_put, pym_ret,
    pym_attr, pym_entry. simpl.
  destruct (PyDict.get name (multi_lang_prompt_lists s)) as [m|] eqn:Hget; simpl.
  - destruct (str_items prompt_list); [|done]. rewrite Hget.
    by destruct (add_item _ lang false _).
  - destruct (str_items prompt_list); [|done]. rewrite get_set_eq.
    by destruct (add_item _ lang false _).
Qed.

(** What each step of a loop keeps, the loop keeps. *)
Lemma pym_for_invariant {S A} (P : S -> Prop) (xs : list A) (body : A -> PyM S unit) :
  (forall x st st', P st -> body x st = (Ok tt, st') -> P st') ->
  forall st st', P st -> pym_for xs body st = (Ok tt, st') -> P st'.
Proof.
  intros Hbody. induction xs as [|x xs IH]; intros st st' Hst; simpl.
  - by intros [= <-].
  - unfold pym_bind. destruct (body x st) as [[[]|e] st1] eqn:Hx; [|done].
    apply IH. by eapply Hbody.
Qed.

Lemma pym_bind_lift_ok {S A B} (r : result A) (k : A -> PyM S B) (st st' : S) (b : B) :
  pym_bind (pym_lift r) k st = (Ok b, st') ->
  exists a, r = Ok a /\ k a st = (Ok b, st').
Proof. unfold pym_bind, pym_lift. destruct r as [a|e]; [by exists a | done]. Qed.

Lemma populated_load_from_disc (prompts_dir : directory) s s' :
  templates_populated s ->
  _load_from_disc E prompts_dir s = (Ok tt, s') ->
  templates_populated s'.
Proof.
  apply (pym_for_invariant templates_populated).
  intros [fn data] st st' Hst.
  destruct (negb _); [by intros [= <-]|].
  intros (prompts_data & _ & Hrun)%pym_bind_lift_ok.
  apply pym_bind_lift_ok in Hrun as (prompts & _ & Hrun).
  apply pym_bind_lift_ok in Hrun as (lang & _ & Hrun).
  revert Hrun. apply (pym_for_invariant templates_populated); [|done].
  intros [prompt_name [template_str|items|entries|text]] st0 st1 Hst0; try done.
  - by apply populated_add_prompt_template.
  - intros Hlist. pose proof (templates_add_prompt_list prompt_name items lang st0) as Ht.
    rewrite Hlist in Ht. simpl in Ht. intros n m. rewrite Ht. apply Hst0.
Qed.

Lemma populated_init (prompts_dir : directory) fm pc :
  PromptCollection_init E prompts_dir fm = Ok pc -> templates_populated pc.
Proof.
  unfold PromptCollection_init.
  destruct (_load_from_disc E prompts_dir _) as [[[]|e] s'] eqn:Hload; [|done].
  intros [= <-]. intros n m. simpl.
  eapply populated_load_from_disc; [|exact Hload]. by intros ? ?.
Qed.

Lemma keys_get {V} (d : dict V) (k : string) :
  k ∈ PyDict.keys d -> is_Some (PyDict.get k d).
Proof.
  unfold PyDict.keys. induction d as [|[k0 v0] d IH]; simpl.
  - by intros ?%elem_of_nil.
  - destruct (String.eqb_spec k0 k) as [->|Hne]; [by eexists|].
    intros [?|?]%elem_of_cons; [congruence | by apply IH].
Qed.

Lemma get_prompt_template_parameters_populated s (name : string) :
  templates_populated s ->
  name ∈ get_prompt_template_names E s ->
  exists mlpt first,
    PyDict.get name (multi_lang_prompt_templates s) = Some mlpt
    /\ head (PyDict.values (lang2item (prompts_container mlpt))) = Some first
    /\ get_prompt_template_parameters E s name
       = Ok (PromptTemplate_get_parameters E first).
Proof.
  intros Hs [mlpt Hget]%keys_get. specialize (Hs name mlpt Hget).
  unfold get_prompt_template_parameters, get_multilang_prompt_template.
  rewrite Hget. simpl.
  unfold MultiLangPromptTemplate_get_parameters, MultiLangPromptTemplate_len,
    MultiLangContainer_len.
  destruct (lang2item (prompts_container mlpt)) as [|[l first] d] eqn:Hd; [done|].
  exists mlpt, first. by rewrite Hd.
Qed.

Lemma template_signatures_populated s (names : list string) :
  templates_populated s ->
  names ⊆ get_prompt_template_names E s ->
  exists signatures,
    template_signatures E s names = Ok signatures
    /\ signatures.*1 = names
    /\ forall name, name ∈ names ->
         exists template_parameters,
           get_prompt_template_parameters E s name = Ok template_parameters
           /\ (name, template_parameters) ∈ signatures.
Proof.
  intros Hs. induction names as [|name names IH]; intros Hsub; simpl.
  - exists []. split; [done|]. split; [done|]. by intros ? ?%elem_of_nil.
  - destruct (get_prompt_template_parameters_populated s name Hs)
      as (mlpt & first & _ & _ & Hp); [apply Hsub, list_elem_of_here|].
    destruct IH as (signatures & Hsig & Hnames & Hin).
    { intros n Hn. by apply Hsub, list_elem_of_further. }
    rewrite Hp, Hsig. simpl. eexists. split; [done|]. split; [by rewrite <- Hnames|].
    intros n [->|Hn]%elem_of_cons.
    + eexists. split; [done | apply list_elem_of_here].
    + destruct (Hin n Hn) as (ps & ? & ?). exists ps. split; [done|].
      by apply list_elem_of_further.
Qed.


End FactoryProperties.

(** ** The generated class *)











Lemma get_list_method_code_print (prompt_list_name : string) :
  get_list_method_code prompt_list_name = print_getter (list_getter prompt_list_name).
Proof. reflexivity. Qed.


Section GeneratedClassProperties.
Variable E : JinjaEngine.






End GeneratedClassProperties.




(** * Further properties of the module *)

(** ** The fallback modes of [get_item] *)

Section FallbackModes.
Context {T : Type}.
Implicit Types (c : MultiLangContainer T) (item : T) (lang : string).

(** X1: the three fallback modes agree on a registered language and are
    ordered by what they accept: where [EXCEPTION] returns, so does
    [USE_DEFAULT_LANG], and where that returns, so does [ANY].  For an
    unregistered language [USE_DEFAULT_LANG] returns the entry of the code
    [default], and it raises (the no-default error) exactly when neither
    the language nor [default] is registered. *)
Theorem get_item_fallback_modes c lang :
  (forall item, PyDict.get lang (lang2item c) = Some item ->
                forall fm, get_item c lang fm = Ok item)
  /\ (is_ok (get_item c lang EXCEPTION) = true ->
      is_ok (get_item c lang USE_DEFAULT_LANG) = true)
  /\ (is_ok (get_item c lang USE_DEFAULT_LANG) = true ->
      is_ok (get_item c lang ANY) = true)
  /\ (PyDict.get lang (lang2item c) = None ->
      get_item c lang EXCEPTION = Raise LanguageNotFound
      /\ get_item c lang USE_DEFAULT_LANG
         = match PyDict.get DEFAULT_LANG_CODE (lang2item c) with
           | Some item => Ok item
           | None => Raise DefaultLanguageNotFound
           end)
  /\ (is_ok (get_item c lang USE_DEFAULT_LANG) = false
      <-> PyDict.get lang (lang2item c) = None
          /\ PyDict.get DEFAULT_LANG_CODE (lang2item c) = None).
Proof.
  split; [intros item Hget fm; by apply get_item_exact|].
  unfold get_item.
  destruct (PyDict.get lang (lang2item c)) as [x|] eqn:Hlang.
  - repeat split; try done. by intros [? _].
  - destruct (PyDict.get DEFAULT_LANG_CODE (lang2item c)) as [x|] eqn:Hdef.
    + repeat split; try done.
      * intros _. destruct (lang2item c) as [|[k y] d]; [done|]. done.
      * by intros [_ ?].
    + repeat split; done.
Qed.

(** X2: whatever its outcome, [add_item] keeps the language codes in
    insertion order: a code that is registered keeps its place, a new one
    goes to the end; the name of the container is never changed. *)
Theorem add_item_language_codes item lang (allow_overwrite : bool) c :
  get_language_codes (add_item item lang allow_overwrite c).2
  = (if PyDict.contains lang (lang2item c) then get_language_codes c
     else (get_language_codes c ++ [lang])%list)
  /\ mlc_name (add_item item lang allow_overwrite c).2 = mlc_name c.
Proof.
  rewrite add_item_eq. unfold get_language_codes, PyDict.contains.
  destruct (PyDict.get lang (lang2item c)) as [x|] eqn:Hget.
  - destruct allow_overwrite; simpl; [|done].
    split; [|done]. apply keys_set_present. by eexists.
  - rewrite andb_false_r. simpl. split; [|done]. by apply keys_set_absent.
Qed.

Lemma contains_keys {V} (d : dict V) (k : string) :
  PyDict.contains k d = true <-> k ∈ PyDict.keys d.
Proof.
  rewrite contains_get. unfold PyDict.keys.
  induction d as [|[k0 v0] d IH]; simpl.
  - split; [by intros [? ?] | by intros ?%elem_of_nil].
  - rewrite elem_of_cons. destruct (String.eqb_spec k0 k) as [->|Hne].
    + split; [by left | by eexists].
    + rewrite IH. split; [by right | by intros [?|?]].
Qed.

(** X3: a container built by [add_item] calls on a new container holds
    each language code once, holds exactly the codes the calls were made
    with, and its length is the number of these codes. *)
Theorem add_items_language_codes (name : string) (calls : list (T * string * bool)) :
  let c := add_items calls (MultiLangContainer_init name) in
  NoDup (get_language_codes c)
  /\ (forall lang, lang ∈ get_language_codes c <-> lang ∈ calls.*1.*2)
  /\ MultiLangContainer_len c = length (get_language_codes c)
  /\ mlc_name c = name.
Proof.
  assert (forall c0 : MultiLangContainer T,
            NoDup (get_language_codes c0) ->
            NoDup (get_language_codes (add_items calls c0))
            /\ (forall lang, lang ∈ get_language_codes (add_items calls c0)
                             <-> lang ∈ get_language_codes c0 \/ lang ∈ calls.*1.*2)
            /\ mlc_name (add_items calls c0) = mlc_name c0) as Hgen.
  { induction calls as [|[[item l] ow] calls IH]; intros c0 Hc0; simpl.
    - split; [done|]. split; [|done]. intros lang. rewrite elem_of_nil. tauto.
    - destruct (add_item_language_codes item l ow c0) as [Hcodes Hname].
      destruct (IH (add_item item l ow c0).2) as (Hnd & Hin & Hn).
      { rewrite Hcodes. destruct (PyDict.contains l (lang2item c0)) eqn:Hl; [done|].
        apply NoDup_app. split; [done|]. split; [|apply NoDup_singleton].
        intros x Hx ->%list_elem_of_singleton.
        apply contains_keys in Hx. unfold get_language_codes in Hx. congruence. }
      split; [done|]. split; [|by rewrite Hn].
      intros lang. rewrite Hin, Hcodes, elem_of_cons.
      destruct (PyDict.contains l (lang2item c0)) eqn:Hl.
      + apply contains_keys in Hl. split; [tauto|].
        intros [?|[->|?]]; tauto.
      + rewrite elem_of_app, list_elem_of_singleton. tauto. }
  intros c. subst c. destruct (Hgen (MultiLangContainer_init name)) as (Hnd & Hin & Hname).
  { apply NoDup_nil_2. }
  split; [done|]. split; [|split; [|done]].
  - intros lang. rewrite (Hin lang). unfold get_language_codes. simpl.
    rewrite elem_of_nil. tauto.
  - unfold MultiLangContainer_len, get_language_codes, PyDict.keys.
    by rewrite length_fmap.
Qed.

End FallbackModes.

(** ** The variants of a MultiLangPromptTemplate *)

Section VariantProperties.
Variable E : JinjaEngine.
Implicit Types (t : PromptTemplate E) (mlpt : MultiLangPromptTemplate E) (lang : string).

Lemma head_values_set {V} (k : string) (v : V) (d : dict V) :
  head (PyDict.values (PyDict.set k v d))
  = match d with
    | [] => Some v
    | (k0, v0) :: _ => if String.eqb k0 k then Some v else Some v0
    end.
Proof. destruct d as [|[k0 v0] d]; simpl; [done|]. by destruct (String.eqb k0 k). Qed.

(** What a call of [add_prompt_template] does to the dictionary: nothing,
    or the assignment of a variant that names no reserved parameter and
    has the parameters of the first variant. *)
Lemma add_prompt_template_lang2item t lang (ow : bool) mlpt :
  let d := lang2item (prompts_container mlpt) in
  let d' := lang2item (prompts_container (add_prompt_template E t lang ow mlpt).2) in
  d' = d
  \/ (d' = PyDict.set lang t d
      /\ (add_prompt_template E t lang ow mlpt).1 = Ok tt
      /\ ("lang_code" ∉ PromptTemplate_get_parameters E t)
      /\ ("fallback_mode" ∉ PromptTemplate_get_parameters E t)
      /\ forall first, head (PyDict.values d) = Some first ->
           PromptTemplate_get_parameters E first = PromptTemplate_get_parameters E t).
Proof.
  intros d d'. subst d d'. rewrite add_prompt_template_eq.
  pose proof (forbidden_filter E t) as Hf.
  destruct (filter _ _); [|by left]. destruct Hf as [H1 H2].
  assert (forall P : Prop, P ->
            let r := add_item t lang ow (prompts_container mlpt) in
            lang2item r.2 = lang2item (prompts_container mlpt)
            \/ (lang2item r.2 = PyDict.set lang t (lang2item (prompts_container mlpt))
                /\ r.1 = Ok tt /\ ("lang_code" ∉ PromptTemplate_get_parameters E t)
                /\ ("fallback_mode" ∉ PromptTemplate_get_parameters E t) /\ P)) as Hadd.
  { intros P HP r. subst r. rewrite add_item_eq. destruct (negb ow && _); simpl; [by left|].
    right. done. }
  destruct (head _) as [first|] eqn:Hhead.
  - destruct (decide (PromptTemplate_get_parameters E first
                      = PromptTemplate_get_parameters E t)) as [Heq|Hne].
    + rewrite bool_decide_false by (by intros ?).
      specialize (Hadd (forall f, Some first = Some f ->
                          PromptTemplate_get_parameters E f
                          = PromptTemplate_get_parameters E t)).
      destruct (add_item t lang ow (prompts_container mlpt)) as [r c]. simpl in *.
      apply Hadd. by intros f [= <-].
    + rewrite bool_decide_true by done. by left.
  - specialize (Hadd (forall f : PromptTemplate E, None = Some f ->
                        PromptTemplate_get_parameters E f
                        = PromptTemplate_get_parameters E t)).
    destruct (add_item t lang ow (prompts_container mlpt)) as [r c]. simpl in *.
    apply Hadd. by intros f [=].
Qed.

(** X4: [get_parameters] raises exactly on a template without variants.  On
    a new template the first [add_prompt_template] is refused if and only
    if the variant names a reserved parameter; otherwise it returns, and
    from then on [get_parameters] gives the parameters of that variant and
    [get_prompt_template] returns it for its language in every mode. *)
Theorem first_variant_sets_parameters (name : string) t lang (allow_overwrite : bool) mlpt :
  (is_ok (MultiLangPromptTemplate_get_parameters E mlpt) = false
   <-> MultiLangPromptTemplate_len E mlpt = 0)
  /\ MultiLangPromptTemplate_get_parameters E (MultiLangPromptTemplate_init E name)
     = Raise NoTemplatesRegistered
  /\ match add_prompt_template E t lang allow_overwrite (MultiLangPromptTemplate_init E name) with
     | (Ok _, mlpt') =>
         ("lang_code" ∉ PromptTemplate_get_parameters E t)
         /\ ("fallback_mode" ∉ PromptTemplate_get_parameters E t)
         /\ MultiLangPromptTemplate_get_parameters E mlpt'
            = Ok (PromptTemplate_get_parameters E t)
         /\ MultiLangPromptTemplate_len E mlpt' = 1
         /\ forall fm, MultiLangPromptTemplate_get_prompt_template E mlpt' lang fm = Ok t
     | (Raise e, mlpt') =>
         e = ForbiddenParameterNames
         /\ mlpt' = MultiLangPromptTemplate_init E name
         /\ (("lang_code" ∈ PromptTemplate_get_parameters E t)
             \/ ("fallback_mode" ∈ PromptTemplate_get_parameters E t))
     end.
Proof.
  split; [|split; [done|]].
  - unfold MultiLangPromptTemplate_get_parameters, MultiLangPromptTemplate_len,
      MultiLangContainer_len.
    by destruct (lang2item (prompts_container mlpt)) as [|[k v] d].
  - rewrite add_prompt_template_eq. pose proof (forbidden_filter E t) as Hf.
    destruct (filter _ _); [|done]. destruct Hf as [H1 H2]. simpl.
    rewrite add_item_eq. simpl. rewrite andb_false_r.
    repeat split; try done.
    intros fm. unfold MultiLangPromptTemplate_get_prompt_template. simpl.
    apply get_item_exact. simpl. by rewrite String.eqb_refl.
Qed.

(** X5: in a template built by [add_prompt_template] calls on a new one,
    whatever their flags and outcomes, every registered variant has the
    parameter list that [get_parameters] returns and names no reserved
    parameter. *)
Theorem variants_share_parameters (name : string)
    (calls : list (PromptTemplate E * string * bool)) lang t :
  let mlpt := add_prompt_templates calls (MultiLangPromptTemplate_init E name) in
  PyDict.get lang (lang2item (prompts_container mlpt)) = Some t ->
  MultiLangPromptTemplate_get_parameters E mlpt = Ok (PromptTemplate_get_parameters E t)
  /\ ("lang_code" ∉ PromptTemplate_get_parameters E t)
  /\ ("fallback_mode" ∉ PromptTemplate_get_parameters E t).
Proof.
  set (Inv := fun d : dict (PromptTemplate E) =>
    forall l v, PyDict.get l d = Some v ->
      (exists first, head (PyDict.values d) = Some first
                     /\ PromptTemplate_get_parameters E first
                        = PromptTemplate_get_parameters E v)
      /\ ("lang_code" ∉ PromptTemplate_get_parameters E v)
      /\ ("fallback_mode" ∉ PromptTemplate_get_parameters E v)).
  assert (forall m0, Inv (lang2item (prompts_container m0)) ->
            Inv (lang2item (prompts_container (add_prompt_templates calls m0)))) as Hgen.
  { induction calls as [|[[t' l'] ow'] calls IH]; intros m0 Hm0; simpl; [done|].
    apply IH.
    destruct (add_prompt_template_lang2item t' l' ow' m0)
      as [-> | (-> & _ & H1 & H2 & Hfirst)]; [done|].
    intros l v Hget.
    assert (exists f, head (PyDict.values (PyDict.set l' t'
                              (lang2item (prompts_container m0)))) = Some f
                      /\ PromptTemplate_get_parameters E f
                         = PromptTemplate_get_parameters E t') as (f & Hf & Hfp).
    { rewrite head_values_set.
      destruct (lang2item (prompts_container m0)) as [|[k0 v0] d] eqn:Hd.
      - by exists t'.
      - destruct (String.eqb k0 l'); [by exists t'|].
        exists v0. split; [done|]. by apply Hfirst. }
    destruct (decide (l = l')) as [->|Hne].
    - rewrite get_set_eq in Hget. injection Hget as <-.
      split; [by exists f | done].
    - rewrite get_set_ne in Hget by done.
      destruct (Hm0 l v Hget) as ((first & Hhead & Hp) & ? & ?).
      split; [|done]. exists f. split; [done|].
      rewrite Hfp, <- Hp. symmetry. by apply Hfirst. }
  intros mlpt Hget. subst mlpt.
  destruct (Hgen (MultiLangPromptTemplate_init E name)) with (l := lang) (v := t)
    as ((first & Hhead & Hp) & H1 & H2); [by intros ? ? | done |].
  split; [|done].
  unfold MultiLangPromptTemplate_get_parameters, MultiLangPromptTemplate_len,
    MultiLangContainer_len.
  destruct (lang2item (prompts_container _)) as [|[k v] d]; [done|].
  simpl in *. injection Hhead as ->. by rewrite Hp.
Qed.

(** X6: once [add_prompt_template(t, lang)] has returned, the template
    returns [t] for [lang] in every mode, renders [t] for it, and holds for
    every other language code what it held before. *)
Theorem add_prompt_template_get_prompt_template t lang (allow_overwrite : bool) mlpt mlpt' :
  add_prompt_template E t lang allow_overwrite mlpt = (Ok tt, mlpt') ->
  (forall fm, MultiLangPromptTemplate_get_prompt_template E mlpt' lang fm = Ok t)
  /\ (forall fm kw, MultiLangPromptTemplate_render E mlpt' lang fm kw
                    = PromptTemplate_render E t kw)
  /\ (forall lang', lang' <> lang ->
        PyDict.get lang' (lang2item (prompts_container mlpt'))
        = PyDict.get lang' (lang2item (prompts_container mlpt)))
  /\ MultiLangPromptTemplate_name E mlpt' = MultiLangPromptTemplate_name E mlpt.
Proof.
  intros Hadd.
  assert (lang2item (prompts_container mlpt')
          = PyDict.set lang t (lang2item (prompts_container mlpt))
          /\ MultiLangPromptTemplate_name E mlpt' = MultiLangPromptTemplate_name E mlpt)
    as [Hd Hname].
  { revert Hadd. rewrite add_prompt_template_eq.
    assert (forall r c, add_item t lang allow_overwrite (prompts_container mlpt) = (r, c) ->
              r = Ok tt ->
              lang2item c = PyDict.set lang t (lang2item (prompts_container mlpt))
              /\ mlc_name c = mlc_name (prompts_container mlpt)) as Hitem.
    { intros r c. rewrite add_item_eq. destruct (negb allow_overwrite && _).
      - by intros [= <- <-].
      - by intros [= <- <-]. }
    destruct (filter _ _); [|done].
    destruct (head _) as [first|].
    - destruct (bool_decide _); [done|].
      destruct (add_item t lang allow_overwrite (prompts_container mlpt)) as [r c] eqn:Hc.
      intros [= -> <-]. by eapply Hitem.
    - destruct (add_item t lang allow_overwrite (prompts_container mlpt)) as [r c] eqn:Hc.
      intros [= -> <-]. by eapply Hitem. }
  assert (forall fm, MultiLangPromptTemplate_get_prompt_template E mlpt' lang fm = Ok t)
    as Hget.
  { intros fm. apply get_item_exact. rewrite Hd. apply get_set_eq. }
  split; [done|]. split; [|split; [|done]].
  - intros fm kw. unfold MultiLangPromptTemplate_render. by rewrite Hget.
  - intros lang' Hne. rewrite Hd. by apply get_set_ne.
Qed.

End VariantProperties.

Lemma variants_share_parameters_witness :
  MultiLangPromptTemplate_get_parameters MiniJinja.engine
    (add_prompt_templates
       [(sample_template "greet" "Hello {{name}}", "en", false);
        (sample_template "greet" "Bye {{who}}", "de", false);
        (sample_template "greet" "Bonjour {{name}}", "fr", false)]
       (MultiLangPromptTemplate_init MiniJinja.engine "greet"))
  = Ok (PromptTemplate_get_parameters MiniJinja.engine
          (sample_template "greet" "Bonjour {{name}}")).
Proof.
  apply (variants_share_parameters MiniJinja.engine "greet"
           [(sample_template "greet" "Hello {{name}}", "en", false);
            (sample_template "greet" "Bye {{who}}", "de", false);
            (sample_template "greet" "Bonjour {{name}}", "fr", false)]
           "fr" (sample_template "greet" "Bonjour {{name}}")).
  reflexivity.
Defined.

Lemma add_prompt_template_get_prompt_template_witness :
  MultiLangPromptTemplate_render MiniJinja.engine
    (add_prompt_template MiniJinja.engine
       (sample_template "greet" "Bonjour {{name}}") "fr" false greet_en).2
    "fr" EXCEPTION {[ "name" := "Alice" ]}
  = PromptTemplate_render MiniJinja.engine
      (sample_template "greet" "Bonjour {{name}}") {[ "name" := "Alice" ]}.
Proof.
  apply (add_prompt_template_get_prompt_template MiniJinja.engine
           (sample_template "greet" "Bonjour {{name}}") "fr" false greet_en).
  reflexivity.
Defined.

(** ** PromptList *)

Lemma lstrip_split (s : string) :
  exists l, s = l +:+ PyStr.lstrip s /\ all_chars PyStr.isspace l = true.
Proof.
  induction s as [|c s (l & Hl & Hspace)]; [by exists EmptyString|].
  simpl. destruct (PyStr.isspace c) eqn:Hc.
  - exists (String c l). simpl. rewrite Hc, Hspace.
    split; [exact (f_equal (String c) Hl) | done].
  - by exists EmptyString.
Qed.

Lemma rstrip_split (s : string) :
  exists r, s = PyStr.rstrip s +:+ r /\ all_chars PyStr.isspace r = true.
Proof.
  induction s as [|c s (r & Hr & Hspace)]; [by exists EmptyString|].
  simpl. destruct (PyStr.rstrip s) as [|a t] eqn:Hs.
  - change (s = r) in Hr. subst r. destruct (PyStr.isspace c) eqn:Hc.
    + exists (String c s). split; [reflexivity|]. simpl. by rewrite Hc, Hspace.
    + exists s. split; [reflexivity | done].
  - exists r. split; [exact (f_equal (String c) Hr) | done].
Qed.

Lemma rstrip_last (s : string) (c : ascii) (r : string) :
  PyStr.rstrip s = String c r -> PyStr.isspace (last_char c r) = false.
Proof.
  revert c r. induction s as [|c0 s IH]; intros c r; [done|].
  simpl. destruct (PyStr.rstrip s) as [|a t] eqn:Hs.
  - destruct (PyStr.isspace c0) eqn:Hc; [done|]. by intros [= <- <-].
  - intros [= <- <-]. simpl. by apply IH.
Qed.

Lemma strip_no_space_at_ends (s : string) : no_space_at_ends (PyStr.strip s) = true.
Proof.
  unfold no_space_at_ends. destruct (PyStr.strip s) as [|c r] eqn:Hs; [done|].
  rewrite (strip_no_leading_space s c r Hs).
  unfold PyStr.strip in Hs. by rewrite (rstrip_last _ c r Hs).
Qed.

(** X7: [PromptList] keeps one item per input string, in order, each
    stripped: no item starts with whitespace, a list built from the items
    of a built list is the same list, and the item at each position is the
    input string at that position without a prefix and a suffix of
    whitespace, with no whitespace left at either end. *)
Theorem PromptList_init_stripped (items : list string) :
  length (pl_items (PromptList_init items)) = length items
  /\ Forall (fun x => match x with
                      | EmptyString => True
                      | String c _ => PyStr.isspace c = false
                      end) (pl_items (PromptList_init items))
  /\ PromptList_init (pl_items (PromptList_init items)) = PromptList_init items
  /\ to_string (PromptList_init (pl_items (PromptList_init items)))
     = to_string (PromptList_init items)
  /\ (forall i x,
        items !! i = Some x ->
        exists l y r,
          pl_items (PromptList_init items) !! i = Some y
          /\ x = l +:+ y +:+ r
          /\ all_chars PyStr.isspace l = true
          /\ all_chars PyStr.isspace r = true
          /\ no_space_at_ends y = true).
Proof.
  unfold PromptList_init. simpl.
  assert (PyStr.strip <$> (PyStr.strip <$> items) = PyStr.strip <$> items) as Hidem.
  { induction items as [|x items IH]; [done|]. rewrite !fmap_cons. by rewrite strip_idem, IH. }
  split; [by rewrite length_fmap|].
  split; [|split; [by rewrite Hidem|split; [by rewrite Hidem|]]].
  - clear Hidem. induction items as [|x items IH]; [constructor|].
    rewrite fmap_cons. constructor; [|exact IH].
    destruct (PyStr.strip x) as [|c r] eqn:Hx; [done|].
    by eapply strip_no_leading_space.
  - intros i x Hx.
    destruct (lstrip_split x) as (l & Hl & Hlspace).
    destruct (rstrip_split (PyStr.lstrip x)) as (r & Hr & Hrspace).
    exists l, (PyStr.strip x), r.
    split; [by rewrite list_lookup_fmap, Hx|].
    split; [unfold PyStr.strip; by rewrite <- Hr|].
    split; [done|]. split; [done|]. apply strip_no_space_at_ends.
Qed.

(** ** The loader *)

Lemma head_values_ok {V} (d : dict V) (v : V) :
  head (PyDict.values d) = Some v ->
  match PyDict.values d with
  | item :: _ => Ok item
  | [] => Raise NoItemsRegistered
  end = Ok v.
Proof. destruct (PyDict.values d); [done|]. by intros [= ->]. Qed.

Section LoaderProperties.
Variable E : JinjaEngine.
Implicit Types (s : PromptCollection E) (fm : LanguageFallbackMode).

Lemma load_from_disc_cons (f : string * yaml) (rest : list (string * yaml)) s :
  _load_from_disc E (f :: rest) s
  = match _load_from_disc E [f] s with
    | (Ok _, s1) => _load_from_disc E rest s1
    | (Raise e, s1) => (Raise e, s1)
    end.
Proof.
  unfold _load_from_disc.
  match goal with |- pym_for _ ?b _ = _ => generalize b end.
  intros body. simpl. unfold pym_bind, pym_ret.
  by destruct (body f s) as [[[]|e] s1].
Qed.

Lemma load_from_disc_skip (fn : string) (data : yaml) s :
  is_yaml_name fn = false -> _load_from_disc E [(fn, data)] s = (Ok tt, s).
Proof.
  intros Hname. unfold _load_from_disc. simpl.
  change (PyStr.endswith fn ".yml" || PyStr.endswith fn ".yaml") with (is_yaml_name fn).
  by rewrite Hname.
Qed.

(** X8: files whose names end neither in [.yml] nor in [.yaml] are
    skipped, whatever they hold: the load of a directory is the load of
    its YAML-named files, and a directory without any loads to the empty
    collection. *)
Theorem load_skips_non_yaml (prompts_dir : list (string * yaml)) s fm :
  _load_from_disc E prompts_dir s
  = _load_from_disc E (filter (fun f => is_yaml_name f.1 = true) prompts_dir) s
  /\ PromptCollection_init E prompts_dir fm
     = PromptCollection_init E (filter (fun f => is_yaml_name f.1 = true) prompts_dir) fm
  /\ (Forall (fun f => is_yaml_name f.1 = false) prompts_dir ->
      PromptCollection_init E prompts_dir fm
      = Ok {| multi_lang_prompt_templates := [];
              multi_lang_prompt_lists := [];
              fallback_mode := fm |}).
Proof.
  assert (forall s0, _load_from_disc E prompts_dir s0
                     = _load_from_disc E
                         (filter (fun f => is_yaml_name f.1 = true) prompts_dir) s0) as Hload.
  { induction prompts_dir as [|[fn data] rest IH]; intros s0; [done|].
    rewrite filter_cons. simpl.
    destruct (decide (is_yaml_name fn = true)) as [Hname|Hname].
    - rewrite (load_from_disc_cons (fn, data) rest),
        (load_from_disc_cons (fn, data)
           (filter (fun f => is_yaml_name f.1 = true) rest)).
      destruct (_load_from_disc E [(fn, data)] s0) as [[[]|e] s1]; [apply IH | done].
    - apply not_true_is_false in Hname.
      rewrite (load_from_disc_cons (fn, data) rest), load_from_disc_skip by done.
      apply IH. }
  split; [apply Hload|]. split.
  - unfold PromptCollection_init. by rewrite Hload.
  - intros Hnone. unfold PromptCollection_init. rewrite Hload.
    replace (filter (fun f => is_yaml_name f.1 = true) prompts_dir) with (@nil (string * yaml)).
    + done.
    + symmetry. clear Hload. induction Hnone as [|f rest Hf _ IH]; [done|].
      rewrite filter_cons, decide_False; [done | congruence].
Qed.

(** X9: templates and lists live in two dictionaries: whatever its
    outcome, adding a template leaves the lists and the fallback mode as
    they were, and adding a list leaves the templates and the fallback mode
    as they were. *)
Theorem namespaces_independent (name body : string) (items : list yaml) (lang : string) s :
  (multi_lang_prompt_lists (_add_prompt_template E name body lang s).2
   = multi_lang_prompt_lists s
   /\ fallback_mode (_add_prompt_template E name body lang s).2 = fallback_mode s)
  /\ (multi_lang_prompt_templates (_add_prompt_list E name items lang s).2
      = multi_lang_prompt_templates s
      /\ fallback_mode (_add_prompt_list E name items lang s).2 = fallback_mode s).
Proof.
  split.
  - unfold _add_prompt_template, pym_bind, pym_lift, pym_get, pym_put, pym_ret,
      pym_attr, pym_entry.
    destruct (PromptTemplate_init E name body) as [t|e]; [|done]. simpl.
    destruct (PyDict.get name (multi_lang_prompt_templates s)) as [m|] eqn:Hget; simpl.
    + rewrite Hget. by destruct (add_prompt_template E t lang false m).
    + rewrite get_set_eq. by destruct (add_prompt_template E t lang false _).
  - split; [apply templates_add_prompt_list|].
    unfold _add_prompt_list, pym_bind, pym_lift, pym_get, pym_put, pym_ret,
      pym_attr, pym_entry. simpl.
    destruct (PyDict.get name (multi_lang_prompt_lists s)) as [m|] eqn:Hget; simpl.
    + destruct (str_items items); [|done]. rewrite Hget.
      by destruct (add_item _ lang false _).
    + destruct (str_items items); [|done]. rewrite get_set_eq.
      by destruct (add_item _ lang false _).
Qed.

Lemma get_None_keys {V} (d : dict V) (k : string) :
  PyDict.get k d = None <-> k ∉ PyDict.keys d.
Proof.
  rewrite <- contains_keys. unfold PyDict.contains.
  destruct (PyDict.get k d); split; done.
Qed.

(** X10: a name that is not registered raises the unknown-name error in
    every lookup, whatever the language code, the keyword arguments and the
    fallback mode; for a registered template name [get_prompt_template]
    never raises that error. *)
Theorem unknown_prompt_name (pc : PromptCollection E) (name : string) :
  (get_multilang_prompt_template E pc name = Raise UnknownPromptName
   <-> name ∉ get_prompt_template_names E pc)
  /\ (get_multilang_prompt_list E pc name = Raise UnknownPromptName
      <-> name ∉ get_prompt_list_names E pc)
  /\ (name ∉ get_prompt_template_names E pc ->
      get_prompt_template_parameters E pc name = Raise UnknownPromptName
      /\ forall lang,
           PromptCollection_get_prompt_template E pc name lang = Raise UnknownPromptName
           /\ forall kw, render_prompt_template E pc name lang kw = Raise UnknownPromptName)
  /\ (name ∉ get_prompt_list_names E pc ->
      forall lang, get_prompt_list E pc name lang = Raise UnknownPromptName)
  /\ (name ∈ get_prompt_template_names E pc ->
      forall lang,
        PromptCollection_get_prompt_template E pc name lang <> Raise UnknownPromptName).
Proof.
  unfold get_prompt_template_names, get_prompt_list_names.
  rewrite <- !get_None_keys.
  unfold get_prompt_template_parameters, render_prompt_template,
    PromptCollection_get_prompt_template, get_prompt_list, get_multilang_prompt_template,
    get_multilang_prompt_list.
  split; [by destruct (PyDict.get name (multi_lang_prompt_templates pc))|].
  split; [by destruct (PyDict.get name (multi_lang_prompt_lists pc))|].
  split; [by intros ->|]. split; [by intros ->|].
  intros [m Hm]%keys_get lang. rewrite Hm. simpl.
  unfold MultiLangPromptTemplate_get_prompt_template, get_item.
  destruct (PyDict.get lang _); [done|].
  destruct (fallback_mode pc); try done.
  - by destruct (PyDict.values _).
  - by destruct (PyDict.get DEFAULT_LANG_CODE _).
Qed.

Lemma NoDup_keys_set {V} (d : dict V) (k : string) (v : V) :
  NoDup (PyDict.keys d) -> NoDup (PyDict.keys (PyDict.set k v d)).
Proof.
  intros Hd. destruct (PyDict.get k d) as [x|] eqn:Hget.
  - rewrite keys_set_present by (by eexists). done.
  - rewrite keys_set_absent by done. apply NoDup_app. split; [done|].
    split; [|apply NoDup_singleton].
    intros y Hy ->%list_elem_of_singleton. by apply get_None_keys in Hget.
Qed.

Lemma set_get_id {V} (d : dict V) (k : string) (v : V) :
  PyDict.get k d = Some v -> PyDict.set k v d = d.
Proof.
  induction d as [|[k0 v0] d IH]; simpl; [done|].
  destruct (String.eqb_spec k0 k) as [->|Hne].
  - by intros [= ->].
  - intros H. by rewrite IH.
Qed.

(** What a returning [_add_prompt_list] has done. *)
Lemma add_prompt_list_ok (name : string) (items : list yaml) (lang : string) s s' :
  _add_prompt_list E name items lang s = (Ok tt, s') ->
  (exists strs, str_items items = Ok strs)
  /\ (NoDup (get_prompt_list_names E s) -> NoDup (get_prompt_list_names E s'))
  /\ (lists_populated s -> lists_populated s').
Proof.
  unfold _add_prompt_list, pym_bind, pym_lift, pym_get, pym_put, pym_ret,
    pym_attr, pym_entry. simpl.
  assert (forall d c0 sx strs,
            (let '(r, d') :=
               let '(r, v') := add_item (PromptList_init strs) lang false c0 in
               (r, PyDict.set name v' d) in
             (r, set_lists E d' sx)) = (Ok tt, s') ->
            exists c1, lang2item c1 <> []
                       /\ multi_lang_prompt_lists s' = PyDict.set name c1 d) as Hstep.
  { intros d c0 sx strs.
    destruct (add_item (PromptList_init strs) lang false c0) as [r c1] eqn:Hadd.
    intros [= -> <-]. exists c1. split; [|done].
    apply add_item_ok_get in Hadd. intros Hnil. by rewrite Hnil in Hadd. }
  assert (forall d c1,
            (forall n, n <> name ->
               PyDict.get n d = PyDict.get n (multi_lang_prompt_lists s)) ->
            (NoDup (get_prompt_list_names E s) -> NoDup (PyDict.keys d)) ->
            lang2item c1 <> [] ->
            multi_lang_prompt_lists s' = PyDict.set name c1 d ->
            (NoDup (get_prompt_list_names E s) -> NoDup (get_prompt_list_names E s'))
            /\ (lists_populated s -> lists_populated s')) as Hfin.
  { intros d c1 Hother Hnd Hc1 Hs'. split.
    - intros Hs. unfold get_prompt_list_names. rewrite Hs'.
      by apply NoDup_keys_set, Hnd.
    - intros Hpop n c. rewrite Hs'. destruct (decide (n = name)) as [->|Hne].
      + rewrite get_set_eq. by intros [= <-].
      + rewrite get_set_ne, Hother by done. apply Hpop. }
  destruct (PyDict.get name (multi_lang_prompt_lists s)) as [m|] eqn:Hget; simpl.
  - destruct (str_items items) as [strs|e]; [|done]. simpl. rewrite Hget.
    intros (c1 & Hc1 & Hs')%Hstep. split; [by eexists|].
    by apply (Hfin (multi_lang_prompt_lists s) c1).
  - destruct (str_items items) as [strs|e]; [|done]. simpl. rewrite get_set_eq.
    intros (c1 & Hc1 & Hs')%Hstep. split; [by eexists|].
    apply (Hfin _ c1) in Hs'; [done| |by apply NoDup_keys_set|done].
    intros n Hne. by apply get_set_ne.
Qed.

(** What a returning [_add_prompt_template] has done. *)
Lemma add_prompt_template_ok (name body lang : string) s s' :
  _add_prompt_template E name body lang s = (Ok tt, s') ->
  NoDup (get_prompt_template_names E s) -> NoDup (get_prompt_template_names E s').
Proof.
  unfold _add_prompt_template, pym_bind, pym_lift, pym_get, pym_put, pym_ret,
    pym_attr, pym_entry.
  destruct (PromptTemplate_init E name body) as [t|e]; [|done]. simpl.
  assert (forall d m0 sx,
            (let '(r, d') :=
               let '(r, v') := add_prompt_template E t lang false m0 in
               (r, PyDict.set name v' d) in
             (r, set_templates E d' sx)) = (Ok tt, s') ->
            exists m1, multi_lang_prompt_templates s' = PyDict.set name m1 d) as Hstep.
  { intros d m0 sx. destruct (add_prompt_template E t lang false m0) as [r m1].
    intros [= -> <-]. by exists m1. }
  unfold get_prompt_template_names.
  destruct (PyDict.get name (multi_lang_prompt_templates s)) as [m|] eqn:Hget; simpl.
  - rewrite Hget. intros [m1 ->]%Hstep Hs. by apply NoDup_keys_set.
  - rewrite get_set_eq. intros [m1 ->]%Hstep Hs. by do 2 apply NoDup_keys_set.
Qed.

(** What each step of a returning loop did, it did from some state. *)
Lemma pym_for_ok_Forall {S A} (xs : list A) (body : A -> PyM S unit) (st st' : S) :
  pym_for xs body st = (Ok tt, st') ->
  Forall (fun x => exists st1 st2 : S, body x st1 = (Ok tt, st2)) xs.
Proof.
  revert st. induction xs as [|x xs IH]; intros st; simpl; [constructor|].
  unfold pym_bind. destruct (body x st) as [[[]|e] st1] eqn:Hx; [|done].
  intros Hrest. constructor; [by exists st, st1 | by eapply IH].
Qed.

(** The invariant of the loader. *)
Lemma load_from_disc_invariant (prompts_dir : directory) s s' :
  _load_from_disc E prompts_dir s = (Ok tt, s') ->
  NoDup (get_prompt_template_names E s) /\ NoDup (get_prompt_list_names E s)
  /\ templates_populated s /\ lists_populated s ->
  NoDup (get_prompt_template_names E s') /\ NoDup (get_prompt_list_names E s')
  /\ templates_populated s' /\ lists_populated s'.
Proof.
  intros Hload Hs. revert Hs Hload.
  apply (pym_for_invariant
           (fun st => NoDup (get_prompt_template_names E st)
                      /\ NoDup (get_prompt_list_names E st)
                      /\ templates_populated st /\ lists_populated st)).
  intros [fn data] st st' Hst.
  destruct (negb _); [by intros [= <-]|].
  intros (prompts_data & _ & Hrun)%pym_bind_lift_ok.
  apply pym_bind_lift_ok in Hrun as (prompts & _ & Hrun).
  apply pym_bind_lift_ok in Hrun as (lang & _ & Hrun).
  revert Hst Hrun.
  apply (pym_for_invariant
           (fun st => NoDup (get_prompt_template_names E st)
                      /\ NoDup (get_prompt_list_names E st)
                      /\ templates_populated st /\ lists_populated st)).
  intros [prompt_name [body|items|entries|text]] st0 st1 (Ht & Hl & Hpt & Hpl); try done.
  - intros Hadd.
    destruct (namespaces_independent prompt_name body [] lang st0) as [[Hlists _] _].
    rewrite Hadd in Hlists. simpl in Hlists.
    split; [by eapply add_prompt_template_ok|].
    split; [unfold get_prompt_list_names; by rewrite Hlists|].
    split; [by eapply populated_add_prompt_template|].
    intros n c. rewrite Hlists. apply Hpl.
  - intros Hadd.
    destruct (namespaces_independent prompt_name EmptyString items lang st0)
      as [_ [Htemplates _]].
    rewrite Hadd in Htemplates. simpl in Htemplates.
    destruct (add_prompt_list_ok _ _ _ _ _ Hadd) as (_ & Hnd & Hpop).
    split; [unfold get_prompt_template_names; by rewrite Htemplates|].
    split; [by apply Hnd|].
    split; [|by apply Hpop].
    intros n m. rewrite Htemplates. apply Hpt.
Qed.

(** X11: in a collection that has loaded, every template name and every
    list name is registered once and has at least one language variant, so
    for a registered template [get_prompt_template_parameters] returns, and
    under the fallback mode [ANY] [get_prompt_template] returns for every
    language code. *)
Theorem loaded_collection_populated (prompts_dir : directory) fm (pc : PromptCollection E) :
  PromptCollection_init E prompts_dir fm = Ok pc ->
  fallback_mode pc = fm
  /\ NoDup (get_prompt_template_names E pc)
  /\ NoDup (get_prompt_list_names E pc)
  /\ (forall name, name ∈ get_prompt_template_names E pc ->
        is_ok (get_prompt_template_parameters E pc name) = true
        /\ (fm = ANY -> forall lang,
              is_ok (PromptCollection_get_prompt_template E pc name lang) = true))
  /\ (forall name, name ∈ get_prompt_list_names E pc ->
        exists mlpl, get_multilang_prompt_list E pc name = Ok mlpl
                     /\ MultiLangContainer_len mlpl <> 0).
Proof.
  unfold PromptCollection_init.
  destruct (_load_from_disc E prompts_dir _) as [[[]|e] s'] eqn:Hload; [|done].
  intros [= <-]. apply load_from_disc_invariant in Hload as (Ht & Hl & Hpt & Hpl).
  2:{ repeat split; try apply NoDup_nil_2; by intros ? ?. }
  split; [done|]. split; [done|]. split; [done|]. split.
  - intros name Hname.
    destruct (get_prompt_template_parameters_populated E (set_fallback_mode E fm s') name)
      as (mlpt & first & Hget & Hhead & Hp); [done..|].
    rewrite Hp. split; [done|]. intros -> lang.
    unfold PromptCollection_get_prompt_template, get_multilang_prompt_template.
    rewrite Hget. simpl.
    unfold MultiLangPromptTemplate_get_prompt_template, get_item.
    destruct (PyDict.get lang _); [done|]. by rewrite (head_values_ok _ _ Hhead).
  - intros name [mlpl Hget]%keys_get. exists mlpl.
    unfold get_multilang_prompt_list. simpl in *. rewrite Hget. split; [done|].
    specialize (Hpl name mlpl Hget). unfold MultiLangContainer_len.
    by destruct (lang2item mlpl).
Qed.

(** X12: the load is all or nothing: when the construction of the
    collection returns, every YAML-named file of the directory is a mapping
    whose [prompts] entry is a mapping from names to strings or to
    sequences of items that have a [strip] method. *)
Theorem loaded_files_accepted (prompts_dir : directory) fm (pc : PromptCollection E) :
  PromptCollection_init E prompts_dir fm = Ok pc ->
  Forall (fun f => is_yaml_name f.1 = true -> accepted_document f.2) prompts_dir.
Proof.
  unfold PromptCollection_init.
  destruct (_load_from_disc E prompts_dir _) as [[[]|e] s'] eqn:Hload; [|done].
  intros _. apply pym_for_ok_Forall in Hload.
  eapply Forall_impl; [exact Hload|].
  intros [fn data] (st1 & st2 & Hrun) Hname. simpl in *.
  change (PyStr.endswith fn ".yml" || PyStr.endswith fn ".yaml")
    with (is_yaml_name fn) in Hrun.
  rewrite Hname in Hrun. simpl in Hrun.
  apply pym_bind_lift_ok in Hrun as (prompts_data & Hdata & Hrun).
  apply pym_bind_lift_ok in Hrun as (prompts & Hprompts & Hrun).
  apply pym_bind_lift_ok in Hrun as (lang & _ & Hrun).
  destruct data as [?|?|entries|?]; try done.
  destruct (PyDict.get "prompts" entries) as [v|] eqn:Hget; [|done].
  injection Hdata as ->.
  destruct prompts_data as [?|?|prompts'|?]; try done. injection Hprompts as ->.
  exists entries, prompts. split; [done|]. split; [done|].
  apply pym_for_ok_Forall in Hrun.
  eapply Forall_impl; [exact Hrun|].
  intros [prompt_name [body|items|?|?]] (st3 & st4 & Hentry); simpl; try done.
  apply add_prompt_list_ok in Hentry as ([strs Hstrs] & _).
  clear -Hstrs. revert strs Hstrs.
  induction items as [|item items IH]; intros strs Hstrs; [constructor|].
  destruct item as [x| | |]; try done. simpl in Hstrs.
  destruct (str_items items) as [rest|e]; [|done].
  constructor; [done | by eapply IH].
Qed.

(** X13: the generator returns exactly when the directory loads, under
    whatever fallback mode; it then emits one [create_] method for every
    registered template name, in the order of registration, with the
    parameters [get_prompt_template_parameters] returns for the name. *)
Theorem autogenerate_returns_iff_loads (prompts_dir : directory) fm :
  is_ok (autogenerate_prompt_factory_module E prompts_dir)
  = is_ok (PromptCollection_init E prompts_dir fm)
  /\ match PromptCollection_init E prompts_dir fm with
     | Raise e => autogenerate_prompt_factory_module E prompts_dir = Raise e
     | Ok pc =>
         exists signatures,
           autogenerate_prompt_factory_module E prompts_dir
           = Ok (generated_header
                 +:+ String.concat EmptyString (create_method_code <$> signatures)
                 +:+ String.concat EmptyString
                       (get_list_method_code <$> get_prompt_list_names E pc))
           /\ signatures.*1 = get_prompt_template_names E pc
           /\ Forall (fun signature =>
                        get_prompt_template_parameters E pc signature.1
                        = Ok signature.2) signatures
     end.
Proof.
  assert (forall names pc signatures,
            template_signatures E pc names = Ok signatures ->
            Forall (fun signature =>
                      get_prompt_template_parameters E pc signature.1
                      = Ok signature.2) signatures) as Hsigs.
  { induction names as [|n names IH]; intros pc signatures; simpl.
    - intros [= <-]. constructor.
    - destruct (get_prompt_template_parameters E pc n) as [ps|e] eqn:Hps; [|done]. simpl.
      destruct (template_signatures E pc names) as [rest|e] eqn:Hrest; [|done]. simpl.
      intros [= <-]. constructor; [done | by apply IH]. }
  assert (forall names pc fm',
            template_signatures E (set_fallback_mode E fm' pc) names
            = template_signatures E pc names) as Hsame.
  { intros names pc fm'. induction names as [|n names IH]; [done|]. simpl. by rewrite IH. }
  destruct (PromptCollection_init E prompts_dir fm) as [pc|e] eqn:Hinit.
  - pose proof (PromptCollection_init_fallback_mode E prompts_dir fm EXCEPTION pc Hinit)
      as Hgen.
    pose proof (populated_init E prompts_dir fm pc Hinit) as Hpop.
    destruct (template_signatures_populated E pc (get_prompt_template_names E pc) Hpop)
      as (signatures & Hsig & Hnames & _); [done|].
    assert (autogenerate_prompt_factory_module E prompts_dir
            = Ok (generated_header
                  +:+ String.concat EmptyString (create_method_code <$> signatures)
                  +:+ String.concat EmptyString
                        (get_list_method_code <$> get_prompt_list_names E pc))) as Hauto.
    { unfold autogenerate_prompt_factory_module. rewrite Hgen. simpl.
      change (get_prompt_template_names E (set_fallback_mode E EXCEPTION pc))
        with (get_prompt_template_names E pc).
      by rewrite Hsame, Hsig. }
    split; [by rewrite Hauto|]. exists signatures.
    split; [done|]. split; [done|]. by eapply Hsigs.
  - assert (PromptCollection_init E prompts_dir EXCEPTION = Raise e) as Hgen.
    { destruct (PromptCollection_init E prompts_dir EXCEPTION) as [pc|e'] eqn:Hex.
      - apply (PromptCollection_init_fallback_mode E prompts_dir EXCEPTION fm pc) in Hex.
        congruence.
      - revert Hinit Hex. unfold PromptCollection_init.
        pose proof (ignores_load_from_disc E prompts_dir EXCEPTION
                      (mkPromptCollection E [] [] fm)) as Hload.
        change (set_fallback_mode E EXCEPTION (mkPromptCollection E [] [] fm))
          with (mkPromptCollection E [] [] EXCEPTION) in Hload.
        rewrite Hload.
        destruct (_load_from_disc E prompts_dir (mkPromptCollection E [] [] fm))
          as [[[]|e0] s0]; simpl; congruence. }
    unfold autogenerate_prompt_factory_module. by rewrite Hgen.
Qed.

(** X14: the loader never overwrites: for a name and a language code that
    are registered, [_add_prompt_list] raises the duplicate-language error
    (or the error of a sequence that holds a non-string) and leaves the
    lists as they were, and [_add_prompt_template] never returns. *)
Theorem load_never_overwrites (name lang : string) s :
  (forall items mlpl,
     PyDict.get name (multi_lang_prompt_lists s) = Some mlpl ->
     PyDict.contains lang (lang2item mlpl) = true ->
     (_add_prompt_list E name items lang s).1
     = match str_items items with
       | Ok _ => Raise DuplicateLanguage
       | Raise e => Raise e
       end
     /\ multi_lang_prompt_lists (_add_prompt_list E name items lang s).2
        = multi_lang_prompt_lists s)
  /\ (forall body mlpt,
       PyDict.get name (multi_lang_prompt_templates s) = Some mlpt ->
       PyDict.contains lang (lang2item (prompts_container mlpt)) = true ->
       is_ok (_add_prompt_template E name body lang s).1 = false).
Proof.
  split.
  - intros items mlpl Hget Hlang.
    unfold _add_prompt_list, pym_bind, pym_lift, pym_get, pym_put, pym_ret,
      pym_attr, pym_entry. simpl. rewrite Hget. simpl.
    destruct (str_items items) as [strs|e]; [|done]. simpl.
    rewrite Hget, add_item_eq, Hlang. simpl. split; [done|]. by apply set_get_id.
  - intros body mlpt Hget Hlang.
    unfold _add_prompt_template, pym_bind, pym_lift, pym_get, pym_put, pym_ret,
      pym_attr, pym_entry.
    destruct (PromptTemplate_init E name body) as [t|e]; [|done]. simpl.
    rewrite Hget. simpl. rewrite Hget.
    rewrite add_prompt_template_eq.
    destruct (filter _ _); [|done].
    destruct (head _) as [first|].
    + destruct (bool_decide _); [done|]. by rewrite add_item_eq, Hlang.
    + by rewrite add_item_eq, Hlang.
Qed.

End LoaderProperties.

Lemma loaded_collection_populated_witness :
  is_ok (get_prompt_template_parameters MiniJinja.engine
           (prompt_collection hello_factory) "greet") = true.
Proof.
  destruct (loaded_collection_populated MiniJinja.engine hello_dir EXCEPTION
              (prompt_collection hello_factory) eq_refl)
    as (_ & _ & _ & Htemplates & _).
  apply Htemplates, list_elem_of_here.
Defined.

Lemma loaded_files_accepted_witness :
  Forall (fun f => is_yaml_name f.1 = true -> accepted_document f.2)
    (("notes.txt", YScalar "7") :: tips_dir).
Proof.
  apply (loaded_files_accepted MiniJinja.engine (("notes.txt", YScalar "7") :: tips_dir)
           ANY
           {| multi_lang_prompt_templates := [];
              multi_lang_prompt_lists :=
                [("tips", {| mlc_name := "tips";
                             lang2item := [("default",
                                            PromptList_init ["Be kind"; "Be brief"])] |})];
              fallback_mode := ANY |}).
  reflexivity.
Defined.
